(** * Fingertip MCP server: tool handlers, request bodies and output envelopes

    The repository registers a set of tools on an MCP server.  Every tool
    validates its arguments against a zod shape, forwards one request to the
    Fingertip API and wraps the answer, or the failure, in a text envelope.
    The sources hold five builds of that server; each is embedded below in a
    module of its own:

    - [Summary]    dist/index.js, first build: SDK client, digest texts;
    - [Initial]    dist/index.js, second build: three site tools;
    - [SdkJson]    first TypeScript build: SDK client, indented JSON texts;
    - [SdkContent] second TypeScript build: [content] as a JSON string;
    - [Axios]      the axios build with [getErrorMessage].

    JavaScript values are a tree type, objects are association lists in
    insertion order, the awaited upstream call is an oracle, and a handler is
    a state-passing computation over the log of calls it made.

    What the handlers take from outside the repository stays outside the
    model: [JSON.parse], [JSON.stringify] and the UUID test of zod are
    fields of a [Runtime], and the payload of a fulfilled call is a JSON
    value.  The SDK client rejects with Error instances; the axios build,
    whose [getErrorMessage] tells three kinds of thrown values apart, can
    receive each of them. *)

From Stdlib Require Import String Ascii List ZArith Bool Lia DecimalString.
Import ListNotations.
Open Scope string_scope.
Set Warnings "-register-all".

(** ** JavaScript values *)

(** Numbers are carried by their integer value: the handlers never compute
    with a number, they test it for truthiness and pass it on. *)
Inductive Value : Type :=
| JUndefined
| JNull
| JBool (b : bool)
| JNum (n : Z)
| JStr (s : string)
| JArr (items : list Value)
| JObj (props : list (string * Value)).

Definition Object := list (string * Value).

Definition LF : string := String (ascii_of_nat 10) EmptyString.

(** Own-property lookup, [key in o]. *)
Fixpoint lookup (k : string) (o : Object) : option Value :=
  match o with
  | [] => None
  | (k', v) :: rest => if String.eqb k k' then Some v else lookup k rest
  end.

Definition has_key (k : string) (o : Object) : bool :=
  match lookup k o with Some _ => true | None => false end.

(** [o.k] on an object, and the binding that destructuring [{k}] gives. *)
Definition get (o : Object) (k : string) : Value :=
  match lookup k o with Some v => v | None => JUndefined end.

(** [o.k = v]: an existing key keeps its place, a new key goes last. *)
Fixpoint set (k : string) (v : Value) (o : Object) : Object :=
  match o with
  | [] => [(k, v)]
  | (k', v') :: rest =>
      if String.eqb k k' then (k', v) :: rest else (k', v') :: set k v rest
  end.

Definition mem (k : string) (ks : list string) : bool :=
  existsb (String.eqb k) ks.

(** The rest pattern [{k1, ..., kn, ...rest}]. *)
Definition omit (ks : list string) (o : Object) : Object :=
  filter (fun kv => negb (mem (fst kv) ks)) o.

(** ToBoolean. *)
Definition truthy (v : Value) : bool :=
  match v with
  | JUndefined | JNull => false
  | JBool b => b
  | JNum n => negb (Z.eqb n 0)
  | JStr s => negb (String.eqb s "")
  | JArr _ | JObj _ => true
  end.

(** [a || b]. *)
Definition js_or (a b : Value) : Value := if truthy a then a else b.

Definition is_nullish (v : Value) : bool :=
  match v with JUndefined | JNull => true | _ => false end.

Definition string_of_Z (n : Z) : string := NilZero.string_of_int (Z.to_int n).

(** ToString, as applied by template literals and by [String(v)]. *)
Fixpoint ToString (v : Value) : string :=
  match v with
  | JUndefined => "undefined"
  | JNull => "null"
  | JBool true => "true"
  | JBool false => "false"
  | JNum n => string_of_Z n
  | JStr s => s
  | JArr items =>
      (fix join (l : list Value) : string :=
         match l with
         | [] => ""
         | x :: rest =>
             (if is_nullish x then "" else ToString x) ++
             match rest with [] => "" | _ :: _ => "," ++ join rest end
         end) items
  | JObj _ => "[object Object]"
  end.

(** Number of UTF-16 code units of a UTF-8 encoded string, [s.length]. *)
Fixpoint utf16_length (s : string) : nat :=
  match s with
  | EmptyString => 0
  | String c rest =>
      let b := nat_of_ascii c in
      (if (b <? 128)%nat then 1
       else if (b <? 192)%nat then 0
       else if (b <? 240)%nat then 1
       else 2) + utf16_length rest
  end.

(** Property read [v.k] for the keys the handlers use; [None] is the
    TypeError of reading a property of [null] or [undefined]. *)
Definition member (v : Value) (k : string) : option Value :=
  match v with
  | JUndefined | JNull => None
  | JObj o => Some (get o k)
  | JArr items =>
      Some (if String.eqb k "length" then JNum (Z.of_nat (length items)) else JUndefined)
  | JStr s =>
      Some (if String.eqb k "length" then JNum (Z.of_nat (utf16_length s)) else JUndefined)
  | JBool _ | JNum _ => Some JUndefined
  end.

(** [v.k] where [v] is known not to be nullish. *)
Definition prop (v : Value) (k : string) : Value :=
  match member v k with Some x => x | None => JUndefined end.

(** [Array.prototype.join] on an array of strings. *)
Fixpoint join (sep : string) (l : list string) : string :=
  match l with
  | [] => ""
  | [x] => x
  | x :: rest => x ++ sep ++ join sep rest
  end.

(** ** The runtime *)

Inductive ParseResult : Type :=
| Parsed (v : Value)
| SyntaxError (message : string).

(** What the handlers take from the JavaScript runtime and from zod. *)
Class Runtime : Type := {
  (** [JSON.parse], which throws a SyntaxError on a text that is not JSON. *)
  JSON_parse : string -> ParseResult;
  (** [JSON.stringify(v)] and [JSON.stringify(v, null, 2)]. *)
  JSON_stringify : Value -> string;
  JSON_stringify_indent : Value -> nat -> string;
  (** The test behind zod's [.uuid()]. *)
  is_uuid : string -> bool;
  (** [Number(v)] as [z.coerce.number()] applies it; [None] is NaN. *)
  Number_of : Value -> option Z;
  (** [process.env.FINGERTIP_API_KEY]; the process exits at start without it. *)
  apiKey : string;
  (** The empty string is not a JSON text. *)
  JSON_parse_empty : forall v, JSON_parse "" <> Parsed v
}.

(** ** zod shapes *)

Module Zod.

Inductive ZodType : Type :=
| z_string                                  (* z.string() *)
| z_uuid                                    (* z.string().uuid() *)
| z_number                                  (* z.number() *)
| z_coerce_number                           (* z.coerce.number() *)
| z_boolean                                 (* z.boolean() *)
| z_any                                     (* z.any() *)
| z_enum (values : list string)             (* z.enum([...]) *)
| z_record_unknown                          (* z.record(z.unknown()) *)
| z_array (t : ZodType)                     (* z.array(t) *)
| z_object (shape : list (string * ZodType)) (* z.object({...}) *)
| z_optional (t : ZodType)                  (* t.optional() *)
| z_nullable (t : ZodType)                  (* t.nullable() *)
| z_default (t : ZodType) (d : Value).      (* t.default(d) *)

Definition Shape := list (string * ZodType).

Section Parse.
Context {RT : Runtime}.

(** The parsed value, or [None] when the input does not fit the type.
    A missing key reads as [undefined]; an object keeps the keys of its
    shape that were given or parsed to a value, and drops all others. *)
Fixpoint parse (t : ZodType) (v : Value) : option Value :=
  match t with
  | z_string => match v with JStr _ => Some v | _ => None end
  | z_uuid =>
      match v with
      | JStr s => if is_uuid s then Some v else None
      | _ => None
      end
  | z_number => match v with JNum _ => Some v | _ => None end
  | z_coerce_number => option_map JNum (Number_of v)
  | z_boolean => match v with JBool _ => Some v | _ => None end
  | z_any => Some v
  | z_enum values =>
      match v with
      | JStr s => if mem s values then Some v else None
      | _ => None
      end
  | z_record_unknown => match v with JObj _ => Some v | _ => None end
  | z_array t' =>
      match v with
      | JArr items =>
          option_map JArr
            ((fix each (l : list Value) : option (list Value) :=
                match l with
                | [] => Some []
                | x :: rest =>
                    match parse t' x, each rest with
                    | Some y, Some ys => Some (y :: ys)
                    | _, _ => None
                    end
                end) items)
      | _ => None
      end
  | z_object shape =>
      match v with
      | JObj input =>
          option_map JObj
            ((fix fields (sh : list (string * ZodType)) : option Object :=
                match sh with
                | [] => Some []
                | (k, tk) :: rest =>
                    match parse tk (get input k), fields rest with
                    | Some JUndefined, Some out =>
                        Some (if has_key k input then (k, JUndefined) :: out else out)
                    | Some y, Some out => Some ((k, y) :: out)
                    | _, _ => None
                    end
                end) shape)
      | _ => None
      end
  | z_optional t' =>
      match v with JUndefined => Some JUndefined | _ => parse t' v end
  | z_nullable t' =>
      match v with JNull => Some JNull | _ => parse t' v end
  | z_default t' d =>
      match v with JUndefined => Some d | _ => parse t' v end
  end.

(** The arguments of a tool against its shape: the parsed object and the
    keys that failed. *)
Fixpoint parse_shape (shape : Shape) (input : Object) : Object * list string :=
  match shape with
  | [] => ([], [])
  | (k, t) :: rest =>
      let (out, issues) := parse_shape rest input in
      match parse t (get input k) with
      | Some JUndefined =>
          (if has_key k input then (k, JUndefined) :: out else out, issues)
      | Some y => ((k, y) :: out, issues)
      | None => (out, k :: issues)
      end
  end.

Inductive SafeParse : Type :=
| Valid (args : Object)
| Invalid (issues : list string).

Definition safeParse (shape : Shape) (input : Object) : SafeParse :=
  match parse_shape shape input with
  | (out, []) => Valid out
  | (_, issues) => Invalid issues
  end.

End Parse.

(** A key typed [z.string().uuid()], possibly optional or nullable. *)
Fixpoint uuid_typed (t : ZodType) : bool :=
  match t with
  | z_uuid => true
  | z_optional t' | z_nullable t' => uuid_typed t'
  | _ => false
  end.

End Zod.

(** ** Tool output *)

Record ContentBlock : Type := { type : string; text : string }.

Record Envelope : Type := { content : list ContentBlock }.

(** [{ content: [{ type: "text", text: s }] }] *)
Definition text_envelope (s : string) : Envelope :=
  {| content := [ {| type := "text"; text := s |} ] |}.

(** ** Handlers as computations *)

Section Effects.
(** [C] is what an upstream call carries, [E] what can be thrown. *)
Context {C E : Type}.

(** How the awaited promise of the upstream call settles. *)
Inductive Outcome : Type :=
| Fulfilled (v : Value)
| Rejected (e : E).

Definition Transport := C -> Outcome.

(** The calls sent upstream and the lines written by [console.error]. *)
Record World : Type := { calls : list C; stderr : list string }.

Definition start : World := {| calls := []; stderr := [] |}.

Inductive Completion (A : Type) : Type :=
| Normal (a : A)
| Abrupt (e : E).

Definition M (A : Type) : Type := Transport -> World -> Completion A * World.

Definition ret {A} (a : A) : M A := fun _ w => (Normal A a, w).

Definition throw {A} (e : E) : M A := fun _ w => (Abrupt A e, w).

Definition bind {A B} (m : M A) (k : A -> M B) : M B :=
  fun tr w =>
    match m tr w with
    | (Normal _ a, w') => k a tr w'
    | (Abrupt _ e, w') => (Abrupt B e, w')
    end.

(** [try { m } catch (error) { h error }] *)
Definition try_catch {A} (m : M A) (h : E -> M A) : M A :=
  fun tr w =>
    match m tr w with
    | (Normal _ a, w') => (Normal A a, w')
    | (Abrupt _ e, w') => h e tr w'
    end.

(** [await] of one upstream call: the call is logged, then it settles. *)
Definition await (c : C) : M Value :=
  fun tr w =>
    let w' := {| calls := calls w ++ [c]; stderr := stderr w |} in
    match tr c with
    | Fulfilled v => (Normal Value v, w')
    | Rejected e => (Abrupt Value e, w')
    end.

Definition console_error (line : string) : M unit :=
  fun _ w => (Normal unit tt, {| calls := calls w; stderr := stderr w ++ [line] |}).

(** A handler run from a fresh world. *)
Definition run {A} (m : M A) (tr : Transport) : Completion A * World := m tr start.

End Effects.

Arguments Outcome : clear implicits.
Arguments Transport : clear implicits.
Arguments World : clear implicits.
Arguments Completion : clear implicits.
Arguments M : clear implicits.
Arguments Normal {E A} a.
Arguments Abrupt {E A} e.
Arguments Fulfilled {E} v.
Arguments Rejected {E} e.

Declare Scope js_scope.
Delimit Scope js_scope with js.
Notation "x <- m ;; k" := (bind m (fun x => k))
  (at level 61, m at next level, right associativity) : js_scope.
Notation "m ;; k" := (bind m (fun _ => k))
  (at level 61, right associativity) : js_scope.
Open Scope js_scope.

(** A block that either falls through with a value or has executed
    [return]. *)
Inductive Flow (A : Type) : Type :=
| Next (a : A)
| Return (env : Envelope).
Arguments Next {A} a.
Arguments Return {A} env.

(** A tool as [server.tool(name, description, paramsSchema, callback)]
    registers it. *)
Record RegisteredTool (C E : Type) : Type := {
  name : string;
  description : string;
  paramsSchema : Zod.Shape;
  callback : Object -> M C E Envelope
}.
Arguments name {C E} _.
Arguments description {C E} _.
Arguments paramsSchema {C E} _.
Arguments callback {C E} _.

(** ** The axios build *)

Module Axios.
Import Zod.

Inductive Method : Type := GET | POST | PATCH | DELETE.

(** One request through the [fingertipApi] instance: [get(url)],
    [get(url, { params })], [post(url, body)], [patch(url, body)],
    [delete(url)]. *)
Record Request : Type := {
  method : Method;
  url : string;
  params : option Object;
  body : option Value
}.

(** [error.response] of an AxiosError: the answer with a status outside 2xx. *)
Record Response : Type := { status : Z; data : Value }.

(** What the [catch] clauses can receive. *)
Inductive Thrown : Type :=
| AxiosError (message : string) (response : option Response)
| Error (message : string)
| NonError (v : Value).

(** [error instanceof Error]; an AxiosError is an Error. *)
Definition instanceof_Error (error : Thrown) : bool :=
  match error with
  | AxiosError _ _ | Error _ => true
  | NonError _ => false
  end.

(** [error.message] *)
Definition message_of (error : Thrown) : Value :=
  match error with
  | AxiosError m _ | Error m => JStr m
  | NonError v => prop v "message"
  end.

(** [String(error)] where [error] is not an Error. *)
Definition String_of (error : Thrown) : string :=
  match error with
  | AxiosError m _ => "AxiosError: " ++ m
  | Error m => "Error: " ++ m
  | NonError v => ToString v
  end.

(** Helper function to extract error message *)
Definition getErrorMessage (error : Thrown) : Value :=
  let body_message :=
    match error with
    | AxiosError _ (Some response) =>
        if is_nullish (data response) then JUndefined
        else prop (data response) "message"
    | _ => JUndefined
    end in
  if truthy body_message then body_message
  else if instanceof_Error error then message_of error
  else JStr (String_of error).

Definition Handler := Object -> M Request Thrown Envelope.

Section Build.
Context {RT : Runtime}.

Definition baseURL : string := "https://api.fingertip.com/v1".

Definition headers : list (string * string) :=
  [("Authorization", "Bearer " ++ apiKey); ("Content-Type", "application/json")].

(** The awaited calls resolve to [response.data]. *)
Definition fingertipApi_get (path : string) (config : option Object)
  : M Request Thrown Value :=
  await {| method := GET; url := path; params := config; body := None |}.

Definition fingertipApi_post (path : string) (payload : Value)
  : M Request Thrown Value :=
  await {| method := POST; url := path; params := None; body := Some payload |}.

Definition fingertipApi_patch (path : string) (payload : Value)
  : M Request Thrown Value :=
  await {| method := PATCH; url := path; params := None; body := Some payload |}.

Definition fingertipApi_delete (path : string) : M Request Thrown Value :=
  await {| method := DELETE; url := path; params := None; body := None |}.

(** [JSON.parse(text)] as a statement that may throw. *)
Definition JSON_parse_or_throw (text : Value) : M Request Thrown Value :=
  match JSON_parse (ToString text) with
  | Parsed v => ret v
  | SyntaxError msg => throw (Error msg)
  end.

(** The text of the inner [catch (parseError)]. *)
Definition parse_error_text (parseError : Thrown) : string :=
  "Error parsing content JSON: " ++
  (if instanceof_Error parseError then ToString (message_of parseError)
   else String_of parseError).

Definition ping : Handler := fun _ =>
  try_catch
    (response <- fingertipApi_get "/ping" None ;;
     ret (text_envelope (JSON_stringify response)))
    (fun error =>
       console_error "Error:" ;;
       ret (text_envelope ("Error: " ++ ToString (getErrorMessage error)))).

Definition get_sites : Handler := fun params =>
  try_catch
    (response <- fingertipApi_get "/sites" (Some params) ;;
     ret (text_envelope (JSON_stringify response)))
    (fun error =>
       console_error "Error:" ;;
       ret (text_envelope ("Error: " ++ ToString (getErrorMessage error)))).

Definition get_site : Handler := fun args =>
  let siteId := get args "siteId" in
  try_catch
    (response <- fingertipApi_get ("/sites/" ++ ToString siteId) None ;;
     ret (text_envelope (JSON_stringify response)))
    (fun error =>
       console_error "Error:" ;;
       ret (text_envelope ("Error: " ++ ToString (getErrorMessage error)))).

Definition create_site : Handler := fun args =>
  let name := get args "name" in
  let slug := get args "slug" in
  let businessType := get args "businessType" in
  let description := get args "description" in
  let status := get args "status" in
  let pages := get args "pages" in
  try_catch
    (let siteData := JObj
       [("name", name);
        ("slug", slug);
        ("businessType", businessType);
        ("description", js_or description JNull);
        ("status", js_or status (JStr "UNPUBLISHED"));
        ("pages", js_or pages (JArr [JObj
           [("slug", JStr "index");
            ("name", name);
            ("description", js_or description JNull);
            ("pageTheme", JObj
               [("content", JObj []);
                ("componentPageThemeId", JNull)]);
            ("blocks", JArr [])]]))] in
     response <- fingertipApi_post "/sites" siteData ;;
     ret (text_envelope (JSON_stringify response)))
    (fun error =>
       console_error "Error:" ;;
       ret (text_envelope ("Error: " ++ ToString (getErrorMessage error)))).

Definition get_page : Handler := fun args =>
  let pageId := get args "pageId" in
  try_catch
    (response <- fingertipApi_get ("/pages/" ++ ToString pageId) None ;;
     ret (text_envelope (JSON_stringify response)))
    (fun error =>
       console_error "Error:" ;;
       ret (text_envelope ("Error: " ++ ToString (getErrorMessage error)))).

Definition update_page : Handler := fun args =>
  let pageId := get args "pageId" in
  let updateData := omit ["pageId"] args in
  try_catch
    (response <- fingertipApi_patch ("/pages/" ++ ToString pageId) (JObj updateData) ;;
     ret (text_envelope (JSON_stringify response)))
    (fun error =>
       console_error "Error:" ;;
       ret (text_envelope ("Error: " ++ ToString (getErrorMessage error)))).

Definition get_page_blocks : Handler := fun args =>
  let pageId := get args "pageId" in
  try_catch
    (response <- fingertipApi_get ("/pages/" ++ ToString pageId ++ "/blocks") None ;;
     ret (text_envelope (JSON_stringify response)))
    (fun error =>
       console_error "Error:" ;;
       ret (text_envelope ("Error: " ++ ToString (getErrorMessage error)))).

Definition create_block : Handler := fun args =>
  let pageId := get args "pageId" in
  let content := get args "content" in
  let restData := omit ["pageId"; "content"] args in
  try_catch
    (let blockData :=
       set "componentBlockId" (js_or (get restData "componentBlockId") JNull) restData in
     parsed <-
       (if truthy content then
          try_catch
            (v <- JSON_parse_or_throw content ;;
             ret (Next (set "content" v blockData)))
            (fun parseError =>
               ret (Return (text_envelope (parse_error_text parseError))))
        else ret (Next blockData)) ;;
     match parsed with
     | Return env => ret env
     | Next blockData =>
         response <- fingertipApi_post ("/pages/" ++ ToString pageId ++ "/blocks")
                       (JObj blockData) ;;
         ret (text_envelope (JSON_stringify response))
     end)
    (fun error =>
       console_error "Error:" ;;
       ret (text_envelope ("Error: " ++ ToString (getErrorMessage error)))).

Definition get_page_theme : Handler := fun args =>
  let pageId := get args "pageId" in
  try_catch
    (response <- fingertipApi_get ("/pages/" ++ ToString pageId ++ "/theme") None ;;
     ret (text_envelope (JSON_stringify response)))
    (fun error =>
       console_error "Error:" ;;
       ret (text_envelope ("Error: " ++ ToString (getErrorMessage error)))).

Definition update_page_theme : Handler := fun args =>
  let pageId := get args "pageId" in
  let content := get args "content" in
  let restUpdateData := omit ["pageId"; "content"] args in
  try_catch
    (let updateData := restUpdateData in
     parsed <-
       (if truthy content then
          try_catch
            (v <- JSON_parse_or_throw content ;;
             ret (Next (set "content" v updateData)))
            (fun parseError =>
               ret (Return (text_envelope (parse_error_text parseError))))
        else ret (Next updateData)) ;;
     match parsed with
     | Return env => ret env
     | Next updateData =>
         response <- fingertipApi_patch ("/pages/" ++ ToString pageId ++ "/theme")
                       (JObj updateData) ;;
         ret (text_envelope (JSON_stringify response))
     end)
    (fun error =>
       console_error "Error:" ;;
       ret (text_envelope ("Error: " ++ ToString (getErrorMessage error)))).

Definition get_block : Handler := fun args =>
  let blockId := get args "blockId" in
  try_catch
    (response <- fingertipApi_get ("/blocks/" ++ ToString blockId) None ;;
     ret (text_envelope (JSON_stringify response)))
    (fun error =>
       console_error "Error:" ;;
       ret (text_envelope ("Error: " ++ ToString (getErrorMessage error)))).

Definition update_block : Handler := fun args =>
  let blockId := get args "blockId" in
  let content := get args "content" in
  let restUpdateData := omit ["blockId"; "content"] args in
  try_catch
    (let updateData := restUpdateData in
     parsed <-
       (if truthy content then
          try_catch
            (v <- JSON_parse_or_throw content ;;
             ret (Next (set "content" v updateData)))
            (fun parseError =>
               ret (Return (text_envelope (parse_error_text parseError))))
        else ret (Next updateData)) ;;
     match parsed with
     | Return env => ret env
     | Next updateData =>
         response <- fingertipApi_patch ("/blocks/" ++ ToString blockId)
                       (JObj updateData) ;;
         ret (text_envelope (JSON_stringify response))
     end)
    (fun error =>
       console_error "Error:" ;;
       ret (text_envelope ("Error: " ++ ToString (getErrorMessage error)))).

Definition delete_block : Handler := fun args =>
  let blockId := get args "blockId" in
  try_catch
    (response <- fingertipApi_delete ("/blocks/" ++ ToString blockId) ;;
     ret (text_envelope (JSON_stringify response)))
    (fun error =>
       console_error "Error:" ;;
       ret (text_envelope ("Error: " ++ ToString (getErrorMessage error)))).

Definition status_values : list string :=
  ["EMPTY"; "UNPUBLISHED"; "PREVIEW"; "SOFT_CLAIM"; "ENABLED"; "DEMO"].

Definition server : list (RegisteredTool Request Thrown) :=
  [ {| name := "ping";
       description := "Simple health check to verify the API is running";
       paramsSchema := [];
       callback := ping |};
    {| name := "get-sites";
       description := "Get a list of sites";
       paramsSchema :=
         [("cursor", z_optional z_string);
          ("search", z_optional z_string);
          ("pageSize", z_optional z_string);
          ("workspaceId", z_optional z_uuid);
          ("statuses", z_optional (z_array z_string));
          ("sortBy", z_optional (z_enum ["createdAt"; "updatedAt"]));
          ("sortDirection", z_optional (z_enum ["asc"; "desc"]))];
       callback := get_sites |};
    {| name := "get-site";
       description := "Get a specific site by ID";
       paramsSchema := [("siteId", z_uuid)];
       callback := get_site |};
    {| name := "create-site";
       description := "Create a new site";
       paramsSchema :=
         [("name", z_string);
          ("slug", z_string);
          ("businessType", z_string);
          ("description", z_optional z_string);
          ("status", z_optional (z_enum status_values));
          ("pages", z_array (z_object
             [("slug", z_string);
              ("name", z_string);
              ("description", z_optional z_string);
              ("pageTheme", z_object
                 [("content", z_optional z_record_unknown);
                  ("isComponent", z_optional z_boolean);
                  ("componentPageThemeId", z_optional (z_nullable z_uuid))]);
              ("blocks", z_optional (z_array (z_object
                 [("name", z_string);
                  ("content", z_optional z_record_unknown);
                  ("kind", z_string);
                  ("isComponent", z_optional z_boolean);
                  ("componentBlockId", z_nullable z_uuid)])))]))];
       callback := create_site |};
    {| name := "get-page";
       description := "Get a specific page by ID";
       paramsSchema := [("pageId", z_uuid)];
       callback := get_page |};
    {| name := "update-page";
       description := "Update a specific page";
       paramsSchema :=
         [("pageId", z_uuid);
          ("name", z_optional z_string);
          ("description", z_optional z_string);
          ("position", z_optional z_number);
          ("slug", z_optional z_string);
          ("bannerMedia", z_optional z_record_unknown);
          ("logoMedia", z_optional z_record_unknown);
          ("socialIcons", z_optional z_record_unknown)];
       callback := update_page |};
    {| name := "get-page-blocks";
       description := "Get all blocks for a specific page";
       paramsSchema := [("pageId", z_uuid)];
       callback := get_page_blocks |};
    {| name := "create-block";
       description := "Create a new block for a page";
       paramsSchema :=
         [("pageId", z_uuid);
          ("name", z_string);
          ("content", z_optional z_string);
          ("kind", z_string);
          ("isComponent", z_optional z_boolean);
          ("componentBlockId", z_optional (z_nullable z_uuid))];
       callback := create_block |};
    {| name := "get-page-theme";
       description := "Get the theme for a specific page";
       paramsSchema := [("pageId", z_uuid)];
       callback := get_page_theme |};
    {| name := "update-page-theme";
       description := "Update the theme for a specific page";
       paramsSchema :=
         [("pageId", z_uuid);
          ("content", z_optional z_string);
          ("isComponent", z_optional z_boolean);
          ("componentPageThemeId", z_optional (z_nullable z_uuid))];
       callback := update_page_theme |};
    {| name := "get-block";
       description := "Get a specific block by ID";
       paramsSchema := [("blockId", z_uuid)];
       callback := get_block |};
    {| name := "update-block";
       description := "Update a specific block";
       paramsSchema :=
         [("blockId", z_uuid);
          ("name", z_optional z_string);
          ("content", z_optional z_string);
          ("kind", z_optional z_string);
          ("isComponent", z_optional z_boolean);
          ("componentBlockId", z_optional (z_nullable z_uuid))];
       callback := update_block |};
    {| name := "delete-block";
       description := "Delete a specific block";
       paramsSchema := [("blockId", z_uuid)];
       callback := delete_block |} ].

End Build.
End Axios.

(** ** The SDK client *)

Module Sdk.

(** A method of the Fingertip client with its arguments, as in
    [client.api.v1.sites.retrieve(siteId)]. *)
Record Call : Type := { operation : string; arguments : list Value }.

(** The client rejects with instances of Error, and so do the TypeErrors
    of the runtime; the handlers read at most [error.message]. *)
Record Error : Type := { message : string }.

Definition Handler := Object -> M Call Error Envelope.

Definition client_call (op : string) (args : list Value) : M Call Error Value :=
  await {| operation := op; arguments := args |}.

Definition TypeError {A} (msg : string) : M Call Error A :=
  throw {| message := msg |}.

(** [v.k] as an expression that throws on [null] and [undefined]. *)
Definition read (v : Value) (k : string) : M Call Error Value :=
  match member v k with
  | Some x => ret x
  | None =>
      TypeError ("Cannot read properties of " ++ ToString v ++
                 " (reading '" ++ k ++ "')")
  end.

(** [items.map(f)]: only an array has [map]. *)
Fixpoint traverse {A B} (f : A -> M Call Error B) (l : list A) : M Call Error (list B) :=
  match l with
  | [] => ret []
  | x :: rest => y <- f x ;; ys <- traverse f rest ;; ret (y :: ys)
  end.

Definition array_map (what : string) (v : Value) (f : Value -> M Call Error string)
  : M Call Error (list string) :=
  match v with
  | JArr items => traverse f items
  | _ => TypeError (what ++ ".map is not a function")
  end.

(** [v === 0] *)
Definition is_zero (v : Value) : bool :=
  match v with JNum n => Z.eqb n 0 | _ => false end.

Definition is_undefined (v : Value) : bool :=
  match v with JUndefined => true | _ => false end.

End Sdk.

Definition DQUOTE : string := String (ascii_of_nat 34) EmptyString.

(** ** dist/index.js, first build: digest texts *)

Module Summary.
Import Zod Sdk.

Section Build.
Context {RT : Runtime}.

Definition get_sites : Handler := fun args =>
  let pageSize := get args "pageSize" in
  let cursor := get args "cursor" in
  let search := get args "search" in
  try_catch
    (let params : Object := [] in
     let params := if truthy pageSize then set "pageSize" (JStr (ToString pageSize)) params else params in
     let params := if truthy cursor then set "cursor" cursor params else params in
     let params := if truthy search then set "search" search params else params in
     sitesData <- client_call "api.v1.sites.list" [JObj params] ;;
     if negb (truthy sitesData) || negb (truthy (prop sitesData "items")) then
       ret (text_envelope "Failed to retrieve sites data")
     else if is_zero (prop (prop sitesData "items") "length") then
       ret (text_envelope "No sites found")
     else
       formattedSites <-
         array_map "sitesData.items" (prop sitesData "items") (fun site =>
           id <- read site "id" ;;
           name <- read site "name" ;;
           slug <- read site "slug" ;;
           status <- read site "status" ;;
           createdAt <- read site "createdAt" ;;
           ret ("ID: " ++ ToString id ++ LF ++ "Name: " ++ ToString name ++ LF ++
                "Slug: " ++ ToString slug ++ LF ++ "Status: " ++ ToString status ++ LF ++
                "Created: " ++ ToString createdAt ++ LF ++ "---")) ;;
       ret (text_envelope
              ("Sites (" ++ ToString (prop sitesData "total") ++ " total):" ++ LF ++ LF ++
               join LF formattedSites)))
    (fun error =>
       console_error "Error getting sites:" ;;
       ret (text_envelope
              "Failed to retrieve sites. Please check your API key and try again.")).

Definition get_site : Handler := fun args =>
  let siteId := get args "siteId" in
  try_catch
    (response <- client_call "api.v1.sites.retrieve" [siteId] ;;
     if negb (truthy response) || negb (truthy (prop response "site")) then
       ret (text_envelope ("Failed to retrieve site with ID: " ++ ToString siteId))
     else
       let site := prop response "site" in
       let pagesInfo :=
         if truthy (prop site "pages")
         then LF ++ "Pages: " ++ ToString (prop (prop site "pages") "length")
         else "" in
       let siteText := join LF
         ["Site Details:";
          "ID: " ++ ToString (prop site "id");
          "Name: " ++ ToString (prop site "name");
          "Slug: " ++ ToString (prop site "slug");
          "Description: " ++ ToString (js_or (prop site "description") (JStr "None"));
          "Status: " ++ ToString (prop site "status");
          "Business Type: " ++ ToString (js_or (prop site "businessType") (JStr "None"));
          "Created: " ++ ToString (prop site "createdAt");
          "Updated: " ++ ToString (prop site "updatedAt");
          pagesInfo] in
       ret (text_envelope siteText))
    (fun error =>
       console_error ("Error getting site " ++ ToString siteId ++ ":") ;;
       ret (text_envelope
              ("Failed to retrieve site with ID: " ++ ToString siteId ++
               ". The site may not exist or you may not have permission to access it."))).

Definition create_site : Handler := fun args =>
  let name := get args "name" in
  let slug := get args "slug" in
  let businessType := get args "businessType" in
  let description := get args "description" in
  try_catch
    (let siteData := JObj
       [("name", name);
        ("slug", slug);
        ("businessType", businessType);
        ("description", js_or description JNull);
        ("status", JStr "UNPUBLISHED");
        ("pages", JArr [JObj
           [("slug", JStr "index");
            ("name", name);
            ("description", js_or description JNull);
            ("pageTheme", JObj
               [("content", JObj []);
                ("componentPageThemeId", JNull)])]])] in
     response <- client_call "api.v1.sites.create" [siteData] ;;
     if negb (truthy response) || negb (truthy (prop response "site")) then
       ret (text_envelope ("Failed to create site: " ++ ToString name))
     else
       let site := prop response "site" in
       let siteText := join LF
         ["Site created successfully:";
          "ID: " ++ ToString (prop site "id");
          "Name: " ++ ToString (prop site "name");
          "Slug: " ++ ToString (prop site "slug");
          "Business Type: " ++ ToString (prop site "businessType");
          "Created: " ++ ToString (prop site "createdAt");
          "URL: https://fingertip.com/" ++ ToString (prop site "updatedAt")] in
       ret (text_envelope siteText))
    (fun error =>
       console_error "Error creating site:" ;;
       ret (text_envelope
              ("Failed to create site. There might be a validation error or the slug " ++
               DQUOTE ++ ToString slug ++ DQUOTE ++ " might already be in use."))).

Definition get_page : Handler := fun args =>
  let pageId := get args "pageId" in
  try_catch
    (response <- client_call "api.v1.pages.retrieve" [pageId] ;;
     if negb (truthy response) || negb (truthy (prop response "page")) then
       ret (text_envelope ("Failed to retrieve page with ID: " ++ ToString pageId))
     else
       let page := prop response "page" in
       let blocksInfo :=
         if truthy (prop page "blocks")
         then LF ++ "Blocks: " ++ ToString (prop (prop page "blocks") "length")
         else "" in
       let pageText := join LF
         ["Page Details:";
          "ID: " ++ ToString (prop page "id");
          "Name: " ++ ToString (js_or (prop page "name") (JStr "Unnamed"));
          "Slug: " ++ ToString (prop page "slug");
          "Site ID: " ++ ToString (prop page "siteId");
          "Description: " ++ ToString (js_or (prop page "description") (JStr "None"));
          "Created: " ++ ToString (prop page "createdAt");
          "Updated: " ++ ToString (prop page "updatedAt");
          blocksInfo] in
       ret (text_envelope pageText))
    (fun error =>
       console_error ("Error getting page " ++ ToString pageId ++ ":") ;;
       ret (text_envelope
              ("Failed to retrieve page with ID: " ++ ToString pageId ++
               ". The page may not exist or you may not have permission to access it."))).

Definition update_page : Handler := fun args =>
  let pageId := get args "pageId" in
  let name := get args "name" in
  let slug := get args "slug" in
  let description := get args "description" in
  let position := get args "position" in
  try_catch
    (let updateData : Object := [] in
     let updateData := if negb (is_undefined name) then set "name" name updateData else updateData in
     let updateData := if negb (is_undefined slug) then set "slug" slug updateData else updateData in
     let updateData :=
       if negb (is_undefined description) then set "description" description updateData
       else updateData in
     let updateData :=
       if negb (is_undefined position) then set "position" position updateData
       else updateData in
     response <- client_call "api.v1.pages.update" [pageId; JObj updateData] ;;
     if negb (truthy response) || negb (truthy (prop response "page")) then
       ret (text_envelope ("Failed to update page with ID: " ++ ToString pageId))
     else
       let page := prop response "page" in
       let pageText := join LF
         ["Page updated successfully:";
          "ID: " ++ ToString (prop page "id");
          "Name: " ++ ToString (js_or (prop page "name") (JStr "Unnamed"));
          "Slug: " ++ ToString (prop page "slug");
          "Description: " ++ ToString (js_or (prop page "description") (JStr "None"));
          "Updated: " ++ ToString (prop page "updatedAt")] in
       ret (text_envelope pageText))
    (fun error =>
       console_error ("Error updating page " ++ ToString pageId ++ ":") ;;
       ret (text_envelope
              ("Failed to update page with ID: " ++ ToString pageId ++
               ". The page may not exist or you may not have permission to update it."))).

Definition get_page_blocks : Handler := fun args =>
  let pageId := get args "pageId" in
  try_catch
    (response <- client_call "api.v1.pages.blocks.list" [pageId] ;;
     if negb (truthy response) || negb (truthy (prop response "blocks")) then
       ret (text_envelope ("No blocks found for page with ID: " ++ ToString pageId))
     else if is_zero (prop (prop response "blocks") "length") then
       ret (text_envelope "Page has no blocks.")
     else
       formattedBlocks <-
         array_map "response.blocks" (prop response "blocks") (fun block =>
           id <- read block "id" ;;
           name <- read block "name" ;;
           kind <- read block "kind" ;;
           isComponent <- read block "isComponent" ;;
           createdAt <- read block "createdAt" ;;
           ret ("ID: " ++ ToString id ++ LF ++ "Name: " ++ ToString name ++ LF ++
                "Kind: " ++ ToString (js_or kind (JStr "None")) ++ LF ++
                "Is Component: " ++ ToString isComponent ++ LF ++
                "Created: " ++ ToString createdAt ++ LF ++ "---")) ;;
       ret (text_envelope
              ("Blocks for page " ++ ToString pageId ++ " (" ++
               ToString (prop (prop response "blocks") "length") ++ " total):" ++
               LF ++ LF ++ join LF formattedBlocks)))
    (fun error =>
       console_error ("Error getting blocks for page " ++ ToString pageId ++ ":") ;;
       ret (text_envelope
              ("Failed to retrieve blocks for page with ID: " ++ ToString pageId ++
               ". The page may not exist or you may not have permission to access it."))).

Definition get_page_theme : Handler := fun args =>
  let pageId := get args "pageId" in
  try_catch
    (response <- client_call "api.v1.pages.theme.retrieve" [pageId] ;;
     if negb (truthy response) || negb (truthy (prop response "pageTheme")) then
       ret (text_envelope ("No theme found for page with ID: " ++ ToString pageId))
     else
       let theme := prop response "pageTheme" in
       let contentSummary :=
         if truthy (prop theme "content") then "Theme has content configuration"
         else "No content configuration" in
       let themeText := join LF
         ["Theme Details:";
          "ID: " ++ ToString (prop theme "id");
          "Is Component: " ++ ToString (prop theme "isComponent");
          "Component Theme ID: " ++
            ToString (js_or (prop theme "componentPageThemeId") (JStr "None"));
          "Created: " ++ ToString (prop theme "createdAt");
          "Updated: " ++ ToString (prop theme "updatedAt");
          "Content: " ++ contentSummary] in
       ret (text_envelope themeText))
    (fun error =>
       console_error ("Error getting theme for page " ++ ToString pageId ++ ":") ;;
       ret (text_envelope
              ("Failed to retrieve theme for page with ID: " ++ ToString pageId ++
               ". The page may not exist or you may not have permission to access it."))).

Definition update_page_theme : Handler := fun args =>
  let pageId := get args "pageId" in
  let content := get args "content" in
  let isComponent := get args "isComponent" in
  let componentPageThemeId := get args "componentPageThemeId" in
  try_catch
    (let updateData : Object := [] in
     let updateData :=
       if negb (is_undefined content) then set "content" content updateData
       else updateData in
     let updateData :=
       if negb (is_undefined isComponent) then set "isComponent" isComponent updateData
       else updateData in
     let updateData :=
       if negb (is_undefined componentPageThemeId)
       then set "componentPageThemeId" componentPageThemeId updateData
       else updateData in
     response <- client_call "api.v1.pages.theme.update" [pageId; JObj updateData] ;;
     if negb (truthy response) || negb (truthy (prop response "pageTheme")) then
       ret (text_envelope ("Failed to update theme for page with ID: " ++ ToString pageId))
     else
       let theme := prop response "pageTheme" in
       let themeText := join LF
         ["Theme updated successfully:";
          "ID: " ++ ToString (prop theme "id");
          "Is Component: " ++ ToString (prop theme "isComponent");
          "Component Theme ID: " ++
            ToString (js_or (prop theme "componentPageThemeId") (JStr "None"));
          "Updated: " ++ ToString (prop theme "updatedAt")] in
       ret (text_envelope themeText))
    (fun error =>
       console_error ("Error updating theme for page " ++ ToString pageId ++ ":") ;;
       ret (text_envelope
              ("Failed to update theme for page with ID: " ++ ToString pageId ++
               ". The page may not exist or you may not have permission to update it."))).

Definition update_block : Handler := fun args =>
  let blockId := get args "blockId" in
  let name := get args "name" in
  let content := get args "content" in
  let kind := get args "kind" in
  let isComponent := get args "isComponent" in
  let componentBlockId := get args "componentBlockId" in
  try_catch
    (let updateData : Object := [] in
     let updateData := if negb (is_undefined name) then set "name" name updateData else updateData in
     let updateData :=
       if negb (is_undefined content) then set "content" content updateData
       else updateData in
     let updateData := if negb (is_undefined kind) then set "kind" kind updateData else updateData in
     let updateData :=
       if negb (is_undefined isComponent) then set "isComponent" isComponent updateData
       else updateData in
     let updateData :=
       if negb (is_undefined componentBlockId)
       then set "componentBlockId" componentBlockId updateData
       else updateData in
     response <- client_call "api.v1.blocks.update" [blockId; JObj updateData] ;;
     if negb (truthy response) || negb (truthy (prop response "block")) then
       ret (text_envelope ("Failed to update block with ID: " ++ ToString blockId))
     else
       let block := prop response "block" in
       let blockText := join LF
         ["Block updated successfully:";
          "ID: " ++ ToString (prop block "id");
          "Name: " ++ ToString (prop block "name");
          "Page ID: " ++ ToString (prop block "pageId");
          "Kind: " ++ ToString (js_or (prop block "kind") (JStr "None"));
          "Is Component: " ++ ToString (prop block "isComponent");
          "Component Block ID: " ++
            ToString (js_or (prop block "componentBlockId") (JStr "None"));
          "Updated: " ++ ToString (prop block "updatedAt")] in
       ret (text_envelope blockText))
    (fun error =>
       console_error ("Error updating block " ++ ToString blockId ++ ":") ;;
       ret (text_envelope
              ("Failed to update block with ID: " ++ ToString blockId ++
               ". The block may not exist or you may not have permission to update it."))).

Definition server : list (RegisteredTool Call Error) :=
  [ {| name := "get-sites";
       description := "Get a list of sites";
       paramsSchema :=
         [("pageSize", z_optional z_number);
          ("cursor", z_optional z_string);
          ("search", z_optional z_string)];
       callback := get_sites |};
    {| name := "get-site";
       description := "Get a specific site by ID";
       paramsSchema := [("siteId", z_uuid)];
       callback := get_site |};
    {| name := "create-site";
       description := "Create a new site";
       paramsSchema :=
         [("name", z_string);
          ("slug", z_string);
          ("businessType", z_string);
          ("description", z_optional z_string)];
       callback := create_site |};
    {| name := "get-page";
       description := "Get a specific page by ID";
       paramsSchema := [("pageId", z_uuid)];
       callback := get_page |};
    {| name := "update-page";
       description := "Update a specific page";
       paramsSchema :=
         [("pageId", z_uuid);
          ("name", z_optional z_string);
          ("slug", z_optional z_string);
          ("description", z_optional z_string);
          ("position", z_optional z_number)];
       callback := update_page |};
    {| name := "get-page-blocks";
       description := "Get all blocks for a specific page";
       paramsSchema := [("pageId", z_uuid)];
       callback := get_page_blocks |};
    {| name := "get-page-theme";
       description := "Get the theme for a specific page";
       paramsSchema := [("pageId", z_uuid)];
       callback := get_page_theme |};
    {| name := "update-page-theme";
       description := "Update the theme for a specific page";
       paramsSchema :=
         [("pageId", z_uuid);
          ("content", z_optional z_any);
          ("isComponent", z_optional z_boolean);
          ("componentPageThemeId", z_optional (z_nullable z_uuid))];
       callback := update_page_theme |};
    {| name := "update-block";
       description := "Update a specific block";
       paramsSchema :=
         [("blockId", z_uuid);
          ("name", z_optional z_string);
          ("content", z_optional z_any);
          ("kind", z_optional z_string);
          ("isComponent", z_optional z_boolean);
          ("componentBlockId", z_optional (z_nullable z_uuid))];
       callback := update_block |} ].

End Build.
End Summary.

(** ** dist/index.js, second build: three site tools *)

Module Initial.
Import Zod Sdk.

Section Build.
Context {RT : Runtime}.

Definition get_sites : Handler := fun args =>
  let pageSize := get args "pageSize" in
  let cursor := get args "cursor" in
  try_catch
    (let params : Object := [] in
     let params := if truthy pageSize then set "pageSize" (JStr (ToString pageSize)) params else params in
     let params := if truthy cursor then set "cursor" cursor params else params in
     sitesData <- client_call "api.v1.sites.list" [JObj params] ;;
     if negb (truthy sitesData) || negb (truthy (prop sitesData "items")) then
       ret (text_envelope "Failed to retrieve sites data")
     else if is_zero (prop (prop sitesData "items") "length") then
       ret (text_envelope "No sites found")
     else
       formattedSites <-
         array_map "sitesData.items" (prop sitesData "items") (fun site =>
           id <- read site "id" ;;
           name <- read site "name" ;;
           slug <- read site "slug" ;;
           status <- read site "status" ;;
           createdAt <- read site "createdAt" ;;
           ret ("ID: " ++ ToString id ++ LF ++ "Name: " ++ ToString name ++ LF ++
                "Slug: " ++ ToString slug ++ LF ++ "Status: " ++ ToString status ++ LF ++
                "Created: " ++ ToString createdAt ++ LF ++ "---")) ;;
       ret (text_envelope
              ("Sites (" ++ ToString (prop sitesData "total") ++ " total):" ++ LF ++ LF ++
               join LF formattedSites)))
    (fun error =>
       console_error "Error getting sites:" ;;
       ret (text_envelope
              "Failed to retrieve sites. Please check your API key and try again.")).

Definition get_site : Handler := fun args =>
  let siteId := get args "siteId" in
  try_catch
    (response <- client_call "api.v1.sites.retrieve" [siteId] ;;
     if negb (truthy response) || negb (truthy (prop response "site")) then
       ret (text_envelope ("Failed to retrieve site with ID: " ++ ToString siteId))
     else
       let site := prop response "site" in
       let pagesInfo :=
         if truthy (prop site "pages")
         then LF ++ "Pages: " ++ ToString (prop (prop site "pages") "length")
         else "" in
       let siteText := join LF
         ["Site Details:";
          "ID: " ++ ToString (prop site "id");
          "Name: " ++ ToString (prop site "name");
          "Slug: " ++ ToString (prop site "slug");
          "Description: " ++ ToString (js_or (prop site "description") (JStr "None"));
          "Status: " ++ ToString (prop site "status");
          "Business Type: " ++ ToString (js_or (prop site "businessType") (JStr "None"));
          "Created: " ++ ToString (prop site "createdAt");
          "Updated: " ++ ToString (prop site "updatedAt");
          pagesInfo] in
       ret (text_envelope siteText))
    (fun error =>
       console_error ("Error getting site " ++ ToString siteId ++ ":") ;;
       ret (text_envelope
              ("Failed to retrieve site with ID: " ++ ToString siteId ++
               ". The site may not exist or you may not have permission to access it."))).

Definition create_site : Handler := fun args =>
  let name := get args "name" in
  let slug := get args "slug" in
  let businessType := get args "businessType" in
  let description := get args "description" in
  let status :=
    if is_undefined (get args "status") then JStr "ENABLED" else get args "status" in
  try_catch
    (let siteData := JObj
       [("name", name);
        ("slug", slug);
        ("businessType", businessType);
        ("description", js_or description JNull);
        ("status", status);
        ("pages", JArr [JObj
           [("slug", JStr "home");
            ("name", JStr "Home");
            ("pageTheme", JObj
               [("content", JNull);
                ("isComponent", JBool false);
                ("componentPageThemeId", JNull)]);
            ("blocks", JArr [])]])] in
     response <- client_call "api.v1.sites.create" [siteData] ;;
     if negb (truthy response) || negb (truthy (prop response "site")) then
       ret (text_envelope ("Failed to create site: " ++ ToString name))
     else
       let site := prop response "site" in
       let siteText := join LF
         ["Site created successfully:";
          "ID: " ++ ToString (prop site "id");
          "Name: " ++ ToString (prop site "name");
          "Slug: " ++ ToString (prop site "slug");
          "Business Type: " ++ ToString (prop site "businessType");
          "Status: " ++ ToString (prop site "status");
          "Created: " ++ ToString (prop site "createdAt")] in
       ret (text_envelope siteText))
    (fun error =>
       console_error "Error creating site:" ;;
       ret (text_envelope
              ("Failed to create site. There might be a validation error or the slug " ++
               DQUOTE ++ ToString slug ++ DQUOTE ++ " might already be in use."))).

Definition status_values : list string :=
  ["EMPTY"; "UNPUBLISHED"; "PREVIEW"; "SOFT_CLAIM"; "ENABLED"; "DEMO"].

Definition server : list (RegisteredTool Call Error) :=
  [ {| name := "get-sites";
       description := "Get a list of sites";
       paramsSchema :=
         [("pageSize", z_optional z_number);
          ("cursor", z_optional z_string)];
       callback := get_sites |};
    {| name := "get-site";
       description := "Get a specific site by ID";
       paramsSchema := [("siteId", z_uuid)];
       callback := get_site |};
    {| name := "create-site";
       description := "Create a new site";
       paramsSchema :=
         [("name", z_string);
          ("slug", z_string);
          ("businessType", z_string);
          ("description", z_optional z_string);
          ("status", z_optional (z_enum status_values))];
       callback := create_site |} ].

End Build.
End Initial.

(** ** First TypeScript build: indented JSON texts *)

Module SdkJson.
Import Zod Sdk.

Section Build.
Context {RT : Runtime}.

Definition get_sites : Handler := fun params =>
  try_catch
    (result <- client_call "api.v1.sites.list" [JObj params] ;;
     ret (text_envelope (JSON_stringify_indent result 2)))
    (fun error =>
       console_error "Error:" ;;
       ret (text_envelope ("Error: " ++ message error))).

Definition get_site : Handler := fun args =>
  let siteId := get args "siteId" in
  try_catch
    (result <- client_call "api.v1.sites.retrieve" [siteId] ;;
     ret (text_envelope (JSON_stringify_indent result 2)))
    (fun error =>
       console_error "Error:" ;;
       ret (text_envelope ("Error: " ++ message error))).

Definition create_site : Handler := fun args =>
  let name := get args "name" in
  let slug := get args "slug" in
  let businessType := get args "businessType" in
  let description := get args "description" in
  try_catch
    (let siteData := JObj
       [("name", name);
        ("slug", slug);
        ("businessType", businessType);
        ("description", js_or description JNull);
        ("status", JStr "UNPUBLISHED");
        ("pages", JArr [JObj
           [("slug", JStr "index");
            ("name", name);
            ("description", js_or description JNull);
            ("pageTheme", JObj
               [("content", JObj []);
                ("componentPageThemeId", JNull)]);
            ("blocks", JArr [])]])] in
     result <- client_call "api.v1.sites.create" [siteData] ;;
     ret (text_envelope (JSON_stringify_indent result 2)))
    (fun error =>
       console_error "Error:" ;;
       ret (text_envelope ("Error: " ++ message error))).

Definition get_page : Handler := fun args =>
  let pageId := get args "pageId" in
  try_catch
    (result <- client_call "api.v1.pages.retrieve" [pageId] ;;
     ret (text_envelope (JSON_stringify_indent result 2)))
    (fun error =>
       console_error "Error:" ;;
       ret (text_envelope ("Error: " ++ message error))).

Definition update_page : Handler := fun args =>
  let pageId := get args "pageId" in
  let updateData := omit ["pageId"] args in
  try_catch
    (result <- client_call "api.v1.pages.update" [pageId; JObj updateData] ;;
     ret (text_envelope (JSON_stringify_indent result 2)))
    (fun error =>
       console_error "Error:" ;;
       ret (text_envelope ("Error: " ++ message error))).

Definition get_page_blocks : Handler := fun args =>
  let pageId := get args "pageId" in
  try_catch
    (result <- client_call "api.v1.pages.blocks.list" [pageId] ;;
     ret (text_envelope (JSON_stringify_indent result 2)))
    (fun error =>
       console_error "Error:" ;;
       ret (text_envelope ("Error: " ++ message error))).

Definition get_page_theme : Handler := fun args =>
  let pageId := get args "pageId" in
  try_catch
    (result <- client_call "api.v1.pages.theme.retrieve" [pageId] ;;
     ret (text_envelope (JSON_stringify_indent result 2)))
    (fun error =>
       console_error "Error:" ;;
       ret (text_envelope ("Error: " ++ message error))).

Definition update_page_theme : Handler := fun args =>
  let pageId := get args "pageId" in
  let updateData := omit ["pageId"] args in
  try_catch
    (result <- client_call "api.v1.pages.theme.update" [pageId; JObj updateData] ;;
     ret (text_envelope (JSON_stringify_indent result 2)))
    (fun error =>
       console_error "Error:" ;;
       ret (text_envelope ("Error: " ++ message error))).

Definition update_block : Handler := fun args =>
  let blockId := get args "blockId" in
  let updateData := omit ["blockId"] args in
  try_catch
    (result <- client_call "api.v1.blocks.update" [blockId; JObj updateData] ;;
     ret (text_envelope (JSON_stringify_indent result 2)))
    (fun error =>
       console_error "Error:" ;;
       ret (text_envelope ("Error: " ++ message error))).

Definition server : list (RegisteredTool Call Error) :=
  [ {| name := "get-sites";
       description := "Get a list of sites";
       paramsSchema :=
         [("cursor", z_optional z_string);
          ("search", z_optional z_string)];
       callback := get_sites |};
    {| name := "get-site";
       description := "Get a specific site by ID";
       paramsSchema := [("siteId", z_uuid)];
       callback := get_site |};
    {| name := "create-site";
       description := "Create a new site";
       paramsSchema :=
         [("name", z_string);
          ("slug", z_string);
          ("businessType", z_string);
          ("description", z_optional z_string)];
       callback := create_site |};
    {| name := "get-page";
       description := "Get a specific page by ID";
       paramsSchema := [("pageId", z_uuid)];
       callback := get_page |};
    {| name := "update-page";
       description := "Update a specific page";
       paramsSchema :=
         [("pageId", z_uuid);
          ("name", z_optional z_string);
          ("slug", z_optional z_string);
          ("description", z_optional z_string);
          ("position", z_optional z_number)];
       callback := update_page |};
    {| name := "get-page-blocks";
       description := "Get all blocks for a specific page";
       paramsSchema := [("pageId", z_uuid)];
       callback := get_page_blocks |};
    {| name := "get-page-theme";
       description := "Get the theme for a specific page";
       paramsSchema := [("pageId", z_uuid)];
       callback := get_page_theme |};
    {| name := "update-page-theme";
       description := "Update the theme for a specific page";
       paramsSchema :=
         [("pageId", z_uuid);
          ("content", z_optional z_any);
          ("isComponent", z_optional z_boolean);
          ("componentPageThemeId", z_optional (z_nullable z_uuid))];
       callback := update_page_theme |};
    {| name := "update-block";
       description := "Update a specific block";
       paramsSchema :=
         [("blockId", z_uuid);
          ("name", z_optional z_string);
          ("content", z_optional z_any);
          ("kind", z_optional z_string);
          ("isComponent", z_optional z_boolean);
          ("componentBlockId", z_optional (z_nullable z_uuid))];
       callback := update_block |} ].

End Build.
End SdkJson.

(** ** Second TypeScript build: [content] as a JSON string *)

Module SdkContent.
Import Zod Sdk.

Section Build.
Context {RT : Runtime}.

(** [JSON.parse(text)] as a statement that may throw. *)
Definition JSON_parse_or_throw (text : Value) : M Call Error Value :=
  match JSON_parse (ToString text) with
  | Parsed v => ret v
  | SyntaxError msg => throw {| message := msg |}
  end.

Definition get_sites : Handler := fun params =>
  try_catch
    (result <- client_call "v1.sites.list" [JObj params] ;;
     ret (text_envelope (JSON_stringify result)))
    (fun error =>
       console_error "Error:" ;;
       ret (text_envelope ("Error: " ++ message error))).

Definition get_site : Handler := fun args =>
  let siteId := get args "siteId" in
  try_catch
    (result <- client_call "v1.sites.retrieve" [siteId] ;;
     ret (text_envelope (JSON_stringify result)))
    (fun error =>
       console_error "Error:" ;;
       ret (text_envelope ("Error: " ++ message error))).

Definition create_site : Handler := fun args =>
  let name := get args "name" in
  let slug := get args "slug" in
  let businessType := get args "businessType" in
  let description := get args "description" in
  try_catch
    (let siteData := JObj
       [("name", name);
        ("slug", slug);
        ("businessType", businessType);
        ("description", js_or description JNull);
        ("status", JStr "UNPUBLISHED");
        ("pages", JArr [JObj
           [("slug", JStr "index");
            ("name", name);
            ("description", js_or description JNull);
            ("pageTheme", JObj
               [("content", JObj []);
                ("componentPageThemeId", JNull)]);
            ("blocks", JArr [])]])] in
     result <- client_call "v1.sites.create" [siteData] ;;
     ret (text_envelope (JSON_stringify result)))
    (fun error =>
       console_error "Error:" ;;
       ret (text_envelope ("Error: " ++ message error))).

Definition get_page : Handler := fun args =>
  let pageId := get args "pageId" in
  try_catch
    (result <- client_call "v1.pages.retrieve" [pageId] ;;
     ret (text_envelope (JSON_stringify result)))
    (fun error =>
       console_error "Error:" ;;
       ret (text_envelope ("Error: " ++ message error))).

Definition update_page : Handler := fun args =>
  let pageId := get args "pageId" in
  let updateData := omit ["pageId"] args in
  try_catch
    (result <- client_call "v1.pages.update" [pageId; JObj updateData] ;;
     ret (text_envelope (JSON_stringify result)))
    (fun error =>
       console_error "Error:" ;;
       ret (text_envelope ("Error: " ++ message error))).

Definition get_page_blocks : Handler := fun args =>
  let pageId := get args "pageId" in
  try_catch
    (result <- client_call "v1.pages.blocks.list" [pageId] ;;
     ret (text_envelope (JSON_stringify result)))
    (fun error =>
       console_error "Error:" ;;
       ret (text_envelope ("Error: " ++ message error))).

Definition get_page_theme : Handler := fun args =>
  let pageId := get args "pageId" in
  try_catch
    (result <- client_call "v1.pages.theme.retrieve" [pageId] ;;
     ret (text_envelope (JSON_stringify result)))
    (fun error =>
       console_error "Error:" ;;
       ret (text_envelope ("Error: " ++ message error))).

Definition update_page_theme : Handler := fun args =>
  let pageId := get args "pageId" in
  let content := get args "content" in
  let restUpdateData := omit ["pageId"; "content"] args in
  try_catch
    (let updateData := restUpdateData in
     parsed <-
       (if truthy content then
          try_catch
            (v <- JSON_parse_or_throw content ;;
             ret (Next (set "content" v updateData)))
            (fun parseError =>
               ret (Return (text_envelope
                              ("Error parsing content JSON: " ++ message parseError))))
        else ret (Next updateData)) ;;
     match parsed with
     | Return env => ret env
     | Next updateData =>
         result <- client_call "v1.pages.theme.update" [pageId; JObj updateData] ;;
         ret (text_envelope (JSON_stringify result))
     end)
    (fun error =>
       console_error "Error:" ;;
       ret (text_envelope ("Error: " ++ message error))).

Definition update_block : Handler := fun args =>
  let blockId := get args "blockId" in
  let content := get args "content" in
  let restUpdateData := omit ["blockId"; "content"] args in
  try_catch
    (let updateData := restUpdateData in
     parsed <-
       (if truthy content then
          try_catch
            (v <- JSON_parse_or_throw content ;;
             ret (Next (set "content" v updateData)))
            (fun parseError =>
               ret (Return (text_envelope
                              ("Error parsing content JSON: " ++ message parseError))))
        else ret (Next updateData)) ;;
     match parsed with
     | Return env => ret env
     | Next updateData =>
         result <- client_call "v1.blocks.update" [blockId; JObj updateData] ;;
         ret (text_envelope (JSON_stringify result))
     end)
    (fun error =>
       console_error "Error:" ;;
       ret (text_envelope ("Error: " ++ message error))).

Definition create_block : Handler := fun args =>
  let pageId := get args "pageId" in
  let content := get args "content" in
  let name := get args "name" in
  let kind := get args "kind" in
  let isComponent := get args "isComponent" in
  let componentBlockId := get args "componentBlockId" in
  try_catch
    (let blockData : Object :=
       [("name", name);
        ("kind", kind);
        ("isComponent", js_or isComponent (JBool false));
        ("componentBlockId", componentBlockId)] in
     parsed <-
       (if truthy content then
          try_catch
            (v <- JSON_parse_or_throw content ;;
             ret (Next (set "content" v blockData)))
            (fun parseError =>
               ret (Return (text_envelope
                              ("Error parsing content JSON: " ++ message parseError))))
        else ret (Next blockData)) ;;
     match parsed with
     | Return env => ret env
     | Next blockData =>
         result <- client_call "v1.pages.blocks.create" [pageId; JObj blockData] ;;
         ret (text_envelope (JSON_stringify result))
     end)
    (fun error =>
       console_error "Error:" ;;
       ret (text_envelope ("Error: " ++ message error))).

Definition server : list (RegisteredTool Call Error) :=
  [ {| name := "get-sites";
       description := "Get a list of sites";
       paramsSchema :=
         [("cursor", z_optional z_string);
          ("search", z_optional z_string);
          ("pageSize", z_coerce_number);
          ("workspaceId", z_optional z_uuid);
          ("sortBy", z_optional (z_enum ["createdAt"; "updatedAt"]));
          ("sortDirection", z_optional (z_enum ["asc"; "desc"]))];
       callback := get_sites |};
    {| name := "get-site";
       description := "Get a specific site by ID";
       paramsSchema := [("siteId", z_uuid)];
       callback := get_site |};
    {| name := "create-site";
       description := "Create a new site";
       paramsSchema :=
         [("name", z_string);
          ("slug", z_string);
          ("businessType", z_string);
          ("description", z_optional z_string)];
       callback := create_site |};
    {| name := "get-page";
       description := "Get a specific page by ID";
       paramsSchema := [("pageId", z_uuid)];
       callback := get_page |};
    {| name := "update-page";
       description := "Update a specific page";
       paramsSchema :=
         [("pageId", z_uuid);
          ("name", z_optional z_string);
          ("description", z_optional z_string);
          ("position", z_optional z_number)];
       callback := update_page |};
    {| name := "get-page-blocks";
       description := "Get all blocks for a specific page";
       paramsSchema := [("pageId", z_uuid)];
       callback := get_page_blocks |};
    {| name := "get-page-theme";
       description := "Get the theme for a specific page";
       paramsSchema := [("pageId", z_uuid)];
       callback := get_page_theme |};
    {| name := "update-page-theme";
       description := "Update the theme for a specific page";
       paramsSchema :=
         [("pageId", z_uuid);
          ("content", z_optional z_string)];
       callback := update_page_theme |};
    {| name := "update-block";
       description := "Update a specific block";
       paramsSchema :=
         [("blockId", z_uuid);
          ("name", z_optional z_string);
          ("content", z_optional z_string);
          ("kind", z_optional z_string)];
       callback := update_block |};
    {| name := "create-block";
       description := "Create a new block within a specified page";
       paramsSchema :=
         [("pageId", z_uuid);
          ("name", z_string);
          ("content", z_optional z_string);
          ("kind", z_string);
          ("isComponent", z_default (z_optional z_boolean) (JBool false));
          ("componentBlockId", z_nullable (z_optional z_uuid))];
       callback := create_block |} ].

End Build.
End SdkContent.

(** ** The protocol layer *)

(** Modelled from the spec: the dispatch of a tool call by the protocol
    layer, the MCP server object on which the tools are registered, which is
    not among the sources.  It checks the arguments against the registered
    shape; a failure short-circuits the pipeline and produces the uniform
    error envelope, a text block prefixed "Error: ", and the callback does not
    run; otherwise the callback runs on the parsed arguments. *)
Definition validation_error_text (tool : string) (issues : list string) : string :=
  "Error: Invalid arguments for tool " ++ tool ++ ": " ++ join ", " issues.

Definition call_tool {RT : Runtime} {C E : Type}
  (tool : RegisteredTool C E) (arguments : Object) : M C E Envelope :=
  match Zod.safeParse (paramsSchema tool) arguments with
  | Zod.Valid args => callback tool args
  | Zod.Invalid issues => ret (text_envelope (validation_error_text (name tool) issues))
  end.

(** ** A reference runtime

    An executable runtime for the integer fragment of JSON, on which the
    handlers can be run: a recursive-descent [JSON.parse], the serializer of
    [JSON.stringify] with its gap, and the 8-4-4-4-12 hexadecimal test for
    UUIDs. *)

Module Reference.

Definition is_ws (c : ascii) : bool :=
  let n := nat_of_ascii c in
  (n =? 32)%nat || (n =? 9)%nat || (n =? 10)%nat || (n =? 13)%nat.

Fixpoint skip_ws (s : string) : string :=
  match s with
  | String c rest => if is_ws c then skip_ws rest else s
  | EmptyString => s
  end.

Definition digit_of (c : ascii) : option Z :=
  let n := nat_of_ascii c in
  if ((48 <=? n) && (n <=? 57))%nat then Some (Z.of_nat (n - 48)) else None.

Fixpoint digits (acc : Z) (s : string) : Z * string :=
  match s with
  | String c rest =>
      match digit_of c with
      | Some d => digits (10 * acc + d) rest
      | None => (acc, s)
      end
  | EmptyString => (acc, s)
  end.

(** [0] or a digit sequence without leading zero; a fraction or an exponent
    is outside the fragment. *)
Definition natural (s : string) : option (Z * string) :=
  match s with
  | String c rest =>
      match digit_of c with
      | Some 0%Z =>
          match rest with
          | String c' _ =>
              match digit_of c' with Some _ => None | None => Some (0%Z, rest) end
          | EmptyString => Some (0%Z, rest)
          end
      | Some d => Some (digits d rest)
      | None => None
      end
  | EmptyString => None
  end.

Definition ends_number (s : string) : bool :=
  match s with
  | String c _ =>
      negb (Ascii.eqb c "." || Ascii.eqb c "e" || Ascii.eqb c "E")%char
  | EmptyString => true
  end.

Definition number (s : string) : option (Z * string) :=
  let signed :=
    match s with
    | String "-" rest =>
        match natural rest with
        | Some (n, r) => Some ((- n)%Z, r)
        | None => None
        end
    | _ => natural s
    end in
  match signed with
  | Some (n, r) => if ends_number r then Some (n, r) else None
  | None => None
  end.

(** The characters of a string literal after its opening quote. *)
Fixpoint chars (s : string) : option (string * string) :=
  match s with
  | EmptyString => None
  | String c rest =>
      if (nat_of_ascii c =? 34)%nat then Some ("", rest)
      else if (nat_of_ascii c =? 92)%nat then
        match rest with
        | String e rest' =>
            let unescaped :=
              if (nat_of_ascii e =? 34)%nat then Some e
              else if (nat_of_ascii e =? 92)%nat then Some e
              else if Ascii.eqb e "/" then Some e
              else if Ascii.eqb e "n" then Some (ascii_of_nat 10)
              else if Ascii.eqb e "t" then Some (ascii_of_nat 9)
              else if Ascii.eqb e "r" then Some (ascii_of_nat 13)
              else if Ascii.eqb e "b" then Some (ascii_of_nat 8)
              else if Ascii.eqb e "f" then Some (ascii_of_nat 12)
              else None in
            match unescaped, chars rest' with
            | Some u, Some (body, r) => Some (String u body, r)
            | _, _ => None
            end
        | EmptyString => None
        end
      else if (nat_of_ascii c <? 32)%nat then None
      else
        match chars rest with
        | Some (body, r) => Some (String c body, r)
        | None => None
        end
  end.

Definition literal (word : string) (v : Value) (s : string) : option (Value * string) :=
  if String.prefix word s
  then Some (v, String.substring (String.length word) (String.length s - String.length word) s)
  else None.

Fixpoint value (fuel : nat) (s : string) : option (Value * string) :=
  match fuel with
  | O => None
  | S fuel' =>
      match skip_ws s with
      | String "{" rest =>
          match skip_ws rest with
          | String "}" r => Some (JObj [], skip_ws r)
          | r =>
              match members fuel' r with
              | Some (o, r') => Some (JObj o, skip_ws r')
              | None => None
              end
          end
      | String "[" rest =>
          match skip_ws rest with
          | String "]" r => Some (JArr [], skip_ws r)
          | r =>
              match elements fuel' r with
              | Some (l, r') => Some (JArr l, skip_ws r')
              | None => None
              end
          end
      | String c rest as s' =>
          if (nat_of_ascii c =? 34)%nat then
            match chars rest with
            | Some (str, r) => Some (JStr str, skip_ws r)
            | None => None
            end
          else if Ascii.eqb c "t" then literal "true" (JBool true) s'
          else if Ascii.eqb c "f" then literal "false" (JBool false) s'
          else if Ascii.eqb c "n" then literal "null" JNull s'
          else
            match number s' with
            | Some (n, r) => Some (JNum n, skip_ws r)
            | None => None
            end
      | EmptyString => None
      end
  end

with elements (fuel : nat) (s : string) : option (list Value * string) :=
  match fuel with
  | O => None
  | S fuel' =>
      match value fuel' s with
      | Some (v, String "," r) =>
          match elements fuel' r with
          | Some (l, r') => Some (v :: l, r')
          | None => None
          end
      | Some (v, String "]" r) => Some ([v], r)
      | _ => None
      end
  end

with members (fuel : nat) (s : string) : option (Object * string) :=
  match fuel with
  | O => None
  | S fuel' =>
      match skip_ws s with
      | String q rest =>
          if (nat_of_ascii q =? 34)%nat then
            match chars rest with
            | Some (k, r) =>
                match skip_ws r with
                | String ":" r1 =>
                    match value fuel' r1 with
                    | Some (v, String "," r2) =>
                        match members fuel' r2 with
                        | Some (o, r3) => Some ((k, v) :: o, r3)
                        | None => None
                        end
                    | Some (v, String "}" r2) => Some ([(k, v)], r2)
                    | _ => None
                    end
                | _ => None
                end
            | None => None
            end
          else None
      | EmptyString => None
      end
  end.

(** A later duplicate of a key overwrites the earlier one, as [JSON.parse]
    builds its objects. *)
Fixpoint dedup (v : Value) : Value :=
  match v with
  | JArr items => JArr (map dedup items)
  | JObj o =>
      JObj ((fix build (l : list (string * Value)) (acc : Object) : Object :=
               match l with
               | [] => acc
               | (k, x) :: rest => build rest (set k (dedup x) acc)
               end) o [])
  | _ => v
  end.

Definition parse (text : string) : ParseResult :=
  match value (S (String.length text)) text with
  | Some (v, EmptyString) => Parsed (dedup v)
  | _ =>
      match skip_ws text with
      | EmptyString => SyntaxError "Unexpected end of JSON input"
      | String _ _ => SyntaxError "Unexpected token in JSON"
      end
  end.

Definition quote (s : string) : string :=
  DQUOTE ++
  (fix esc (s : string) : string :=
     match s with
     | EmptyString => ""
     | String c rest =>
         (if (nat_of_ascii c =? 34)%nat then "\" ++ DQUOTE
          else if (nat_of_ascii c =? 92)%nat then "\\"
          else if (nat_of_ascii c =? 10)%nat then "\n"
          else if (nat_of_ascii c =? 13)%nat then "\r"
          else if (nat_of_ascii c =? 9)%nat then "\t"
          else String c "") ++ esc rest
     end) s ++
  DQUOTE.

(** The serializer: [indent] is the current indentation, [gap] the unit
    added per level; an empty gap gives the compact form. *)
Fixpoint serialize (gap indent : string) (v : Value) : string :=
  let stepback := indent in
  let indent := indent ++ gap in
  let compact := String.eqb gap "" in
  let separator := if compact then "," else "," ++ LF ++ indent in
  let wrap (open close inner : string) :=
    if compact then open ++ inner ++ close
    else open ++ LF ++ indent ++ inner ++ LF ++ stepback ++ close in
  match v with
  | JUndefined => "undefined"
  | JNull => "null"
  | JBool true => "true"
  | JBool false => "false"
  | JNum n => string_of_Z n
  | JStr s => quote s
  | JArr [] => "[]"
  | JArr items =>
      wrap "[" "]"
        (join separator
           (map (fun x => match x with JUndefined => "null" | _ => serialize gap indent x end)
              items))
  | JObj o =>
      match
        (fix entries (l : list (string * Value)) : list string :=
           match l with
           | [] => []
           | (_, JUndefined) :: rest => entries rest
           | (k, x) :: rest =>
               (quote k ++ (if compact then ":" else ": ") ++ serialize gap indent x)
                 :: entries rest
           end) o
      with
      | [] => "{}"
      | partial => wrap "{" "}" (join separator partial)
      end
  end.

Definition spaces (n : nat) : string := String.concat "" (repeat " " (Nat.min n 10)).

Definition is_hex (c : ascii) : bool :=
  let n := nat_of_ascii c in
  ((48 <=? n) && (n <=? 57) || (65 <=? n) && (n <=? 70) || (97 <=? n) && (n <=? 102))%nat.

(** Groups of 8, 4, 4, 4 and 12 hexadecimal digits joined by hyphens. *)
Fixpoint groups (sizes : list nat) (s : string) : bool :=
  match sizes with
  | [] => String.eqb s ""
  | n :: rest =>
      let g := String.substring 0 n s in
      let r := String.substring n (String.length s - n) s in
      (String.length g =? n)%nat &&
      forallb is_hex (list_ascii_of_string g) &&
      match rest with
      | [] => String.eqb r ""
      | _ :: _ =>
          match r with
          | String "-" r' => groups rest r'
          | _ => false
          end
      end
  end.

Definition uuid (s : string) : bool := groups [8; 4; 4; 4; 12]%nat s.

Definition to_number (v : Value) : option Z :=
  match v with
  | JNum n => Some n
  | JNull | JBool false => Some 0%Z
  | JBool true => Some 1%Z
  | JStr s =>
      match skip_ws s with
      | EmptyString => Some 0%Z
      | t =>
          match number t with
          | Some (n, r) => if String.eqb (skip_ws r) "" then Some n else None
          | None => None
          end
      end
  | _ => None
  end.

Definition runtime : Runtime.
Proof.
  refine {| JSON_parse := parse;
            JSON_stringify := serialize "" "";
            JSON_stringify_indent := fun v n => serialize (spaces n) "" v;
            is_uuid := uuid;
            Number_of := to_number;
            apiKey := "test-key" |}.
  intros v. discriminate.
Defined.

End Reference.

(** ** Vocabulary of the properties *)

(** The envelope carries at least one text block. *)
Definition has_text_block (env : Envelope) : bool :=
  existsb (fun b => String.eqb (type b) "text") (content env).

(** Every normal result of [m] satisfies [P]. *)
Definition produces {C E A} (m : M C E A) (P : A -> Prop) : Prop :=
  forall tr w a w', m tr w = (Normal a, w') -> P a.

(** [m] always completes normally, with a single text block. *)
Definition answers {C E} (m : M C E Envelope) : Prop :=
  forall tr w, exists s w', m tr w = (Normal (text_envelope s), w').

Definition is_text (env : Envelope) : Prop := exists s, env = text_envelope s.

Definition flow_is_text {A} (r : Flow A) : Prop :=
  match r with
  | Next _ => True
  | Return env => is_text env
  end.

(** The second argument of a client method, the request body of the
    update and create operations. *)
Definition sdk_body (c : Sdk.Call) : option Value := nth_error (Sdk.arguments c) 1.

Definition find_tool {C E} (n : string) (server : list (RegisteredTool C E))
  : option (RegisteredTool C E) :=
  find (fun t => String.eqb (name t) n) server.

Definition id_keys : list string := ["siteId"; "pageId"; "blockId"].

Definition update_tools : list string := ["update-page"; "update-block"; "update-page-theme"].

(** [content] declared as [z.string().optional()]. *)
Definition string_content (sh : Zod.Shape) : bool :=
  existsb (fun kt => String.eqb (fst kt) "content" &&
                     match snd kt with
                     | Zod.z_optional Zod.z_string => true
                     | _ => false
                     end) sh.

(** The fields of an update tool that go to the body as they came: all keys
    of its shape but the identifier, and but a string-typed [content]. *)
Definition forwarded (sh : Zod.Shape) : list string :=
  filter (fun k => negb (mem k id_keys) &&
                   negb (String.eqb k "content" && string_content sh))
         (map fst sh).

(** Field by field: an omitted key is absent from the body, a given value
    is there unchanged. *)
Definition same_on (keys : list string) (args body : Object) : Prop :=
  forall k, In k keys ->
    match lookup k args with
    | None => lookup k body = None
    | Some v => v <> JUndefined -> lookup k body = Some v
    end.

(** What an update tool sends: one request whose body agrees with the
    arguments on the forwarded fields and has no [content] unless one was
    given; or, where [content] is a string, nothing at all because the
    content did not parse. *)
Definition update_contract {RT : Runtime} {C} (body_of : C -> option Value)
  (schema : Zod.Shape) (args : Object) (w : World C) : Prop :=
  (exists c body,
     calls w = [c] /\
     body_of c = Some (JObj body) /\
     same_on (forwarded schema) args body /\
     (lookup "content" args = None -> lookup "content" body = None)) \/
  (string_content schema = true /\
   calls w = [] /\
   truthy (get args "content") = true /\
   exists msg, JSON_parse (ToString (get args "content")) = SyntaxError msg).

(** Every identifier key of the shape is typed as a UUID. *)
Definition ids_are_uuids (sh : Zod.Shape) : bool :=
  forallb (fun kt => implb (mem (fst kt) id_keys) (Zod.uuid_typed (snd kt))) sh.

(** The arguments of the second end-to-end scenario. *)
Definition acme : Object :=
  [("name", JStr "Acme"); ("slug", JStr "acme"); ("businessType", JStr "retail")].

(** The identifier of the end-to-end scenarios, a transport that fulfils
    every call with [null], and the transport of the fourth scenario. *)
Definition id1 : string := "11111111-1111-1111-1111-111111111111".

Definition fulfilled {C E} : Transport C E := fun _ => Fulfilled JNull.

Definition not_found : Transport Axios.Request Axios.Thrown :=
  fun _ => Rejected (Axios.AxiosError "Request failed with status code 404"
                       (Some {| Axios.status := 404;
                                Axios.data := JObj [("message", JStr "Site not found")] |})).

(** ** Vocabulary of the further properties *)

(** What a computation does to the world: whatever the log it starts from,
    it completes the same way and appends the same calls, at most [n] of
    them, and the same lines. *)
Definition effect {C E A} (n : nat) (m : M C E A) : Prop :=
  forall tr, exists r cs errs,
    length cs <= n /\
    forall w, m tr w = (r, {| calls := calls w ++ cs; stderr := stderr w ++ errs |}).

(** The block of one site in the listing of the digest builds, and the
    block of one page block. *)
Definition site_block (site : Value) : string :=
  "ID: " ++ ToString (prop site "id") ++ LF ++
  "Name: " ++ ToString (prop site "name") ++ LF ++
  "Slug: " ++ ToString (prop site "slug") ++ LF ++
  "Status: " ++ ToString (prop site "status") ++ LF ++
  "Created: " ++ ToString (prop site "createdAt") ++ LF ++ "---".

Definition block_block (block : Value) : string :=
  "ID: " ++ ToString (prop block "id") ++ LF ++
  "Name: " ++ ToString (prop block "name") ++ LF ++
  "Kind: " ++ ToString (js_or (prop block "kind") (JStr "None")) ++ LF ++
  "Is Component: " ++ ToString (prop block "isComponent") ++ LF ++
  "Created: " ++ ToString (prop block "createdAt") ++ LF ++ "---".

Definition present (v : Value) : bool := negb (is_nullish v).

(** The key of the payload that a tool of the digest builds reads its
    answer from. *)
Definition entity (tool : string) : string :=
  if String.eqb tool "get-sites" then "items"
  else if String.eqb tool "get-page-blocks" then "blocks"
  else if mem tool ["get-site"; "create-site"] then "site"
  else if mem tool ["get-page"; "update-page"] then "page"
  else if mem tool ["get-page-theme"; "update-page-theme"] then "pageTheme"
  else "block".

(** The HTTP method that goes with the verb in the name of a tool. *)
Definition verb_method (tool : string) : Axios.Method :=
  if String.prefix "create-" tool then Axios.POST
  else if String.prefix "update-" tool then Axios.PATCH
  else if String.prefix "delete-" tool then Axios.DELETE
  else Axios.GET.

(** The identifier parameter of a tool: the first key of its shape. *)
Definition id_key (sh : Zod.Shape) : string := hd "" (map fst sh).

(** A listing payload with one site, and the transport that fulfils every
    call with a given payload. *)
Definition one_site : Value :=
  JObj [("items", JArr [JObj [("id", JStr id1); ("name", JStr "Acme");
                              ("slug", JStr "acme"); ("status", JStr "ENABLED");
                              ("createdAt", JStr "2025-01-01")]]);
        ("total", JNum 1)].

Definition one_block : Value :=
  JObj [("blocks", JArr [JObj [("id", JStr id1); ("name", JStr "Hero");
                               ("isComponent", JBool false);
                               ("createdAt", JStr "2025-01-01")]])].

Definition fulfils {C E} (v : Value) : Transport C E := fun _ => Fulfilled v.

Definition rejects {C E} (e : E) : Transport C E := fun _ => Rejected e.

(** * Properties *)

(** ** Reasoning about handlers *)

Section Rules.
Context {C E : Type}.

Lemma produces_ret {A} (a : A) (P : A -> Prop) :
  P a -> produces (C := C) (E := E) (ret a) P.
Proof. intros HP tr w a' w' H. inversion H; subst; exact HP. Qed.

Lemma produces_bind {A B} (m : M C E A) (k : A -> M C E B)
      (P : A -> Prop) (Q : B -> Prop) :
  produces m P -> (forall a, P a -> produces (k a) Q) -> produces (bind m k) Q.
Proof.
  intros Hm Hk tr w b w' H. unfold bind in H.
  destruct (m tr w) as [[a | e] w1] eqn:Em.
  - exact (Hk a (Hm _ _ _ _ Em) _ _ _ _ H).
  - discriminate H.
Qed.

Lemma produces_try_catch {A} (m : M C E A) (h : E -> M C E A) (P : A -> Prop) :
  produces m P -> (forall e, produces (h e) P) -> produces (try_catch m h) P.
Proof.
  intros Hm Hh tr w a w' H. unfold try_catch in H.
  destruct (m tr w) as [[a0 | e] w1] eqn:Em.
  - inversion H; subst. exact (Hm _ _ _ _ Em).
  - exact (Hh e _ _ _ _ H).
Qed.

Lemma produces_True {A} (m : M C E A) : produces m (fun _ => True).
Proof. intros tr w a w' _. exact I. Qed.

Lemma is_text_text_envelope (s : string) : is_text (text_envelope s).
Proof. exists s. reflexivity. Qed.

(** The shape of every handler: a body whose normal results are text
    envelopes, under a [catch] clause that answers. *)
Lemma answers_try_catch (m : M C E Envelope) (h : E -> M C E Envelope) :
  produces m is_text -> (forall e, answers (h e)) -> answers (try_catch m h).
Proof.
  intros Hm Hh tr w. unfold try_catch.
  destruct (m tr w) as [[env | e] w1] eqn:Em.
  - destruct (Hm _ _ _ _ Em) as [s ->]. exists s, w1. reflexivity.
  - exact (Hh e tr w1).
Qed.

Lemma answers_log_then_text (line s : string) :
  answers (C := C) (E := E) (console_error line ;; ret (text_envelope s)).
Proof. intros tr w. eexists _, _. reflexivity. Qed.

Lemma answers_has_text_block (m : M C E Envelope) :
  answers m ->
  forall tr w, exists env w',
    m tr w = (Normal env, w') /\ has_text_block env = true.
Proof.
  intros Hm tr w. destruct (Hm tr w) as (s & w' & H).
  exists (text_envelope s), w'. split; [exact H | reflexivity].
Qed.

End Rules.

(** One step of the symbolic run of a handler body. *)
Ltac body_step :=
  match goal with
  | |- produces (ret (text_envelope _)) is_text =>
      apply produces_ret, is_text_text_envelope
  | |- produces (ret (Next _)) flow_is_text => apply produces_ret; exact I
  | |- produces (ret (Return (text_envelope _))) flow_is_text =>
      apply produces_ret; simpl; apply is_text_text_envelope
  | |- produces (try_catch _ _) _ => apply produces_try_catch; [| intros ?]
  | |- produces (bind (if _ then _ else _) _) is_text =>
      apply produces_bind with (P := flow_is_text);
      [| intros [? | ?] ?; [| apply produces_ret; assumption]]
  | |- produces (bind _ _) _ =>
      apply produces_bind with (P := fun _ => True);
      [apply produces_True | intros ? _]
  | |- produces (if ?c then _ else _) _ => destruct c
  | |- produces (match ?x with _ => _ end) _ => destruct x
  end.

Ltac handler_answers :=
  intros args; apply answers_try_catch;
  [ cbv zeta; repeat body_step
  | intros ?; apply answers_log_then_text ].

(** ** Every handler answers with a text envelope *)

Section Answers.
Context {RT : Runtime}.

Lemma summary_answers t :
  In t Summary.server -> forall args, answers (callback t args).
Proof.
  intros Ht. simpl in Ht.
  repeat (destruct Ht as [<- | Ht]; [simpl callback; handler_answers |]).
  contradiction.
Qed.

Lemma initial_answers t :
  In t Initial.server -> forall args, answers (callback t args).
Proof.
  intros Ht. simpl in Ht.
  repeat (destruct Ht as [<- | Ht]; [simpl callback; handler_answers |]).
  contradiction.
Qed.

Lemma sdk_json_answers t :
  In t SdkJson.server -> forall args, answers (callback t args).
Proof.
  intros Ht. simpl in Ht.
  repeat (destruct Ht as [<- | Ht]; [simpl callback; handler_answers |]).
  contradiction.
Qed.

Lemma sdk_content_answers t :
  In t SdkContent.server -> forall args, answers (callback t args).
Proof.
  intros Ht. simpl in Ht.
  repeat (destruct Ht as [<- | Ht]; [simpl callback; handler_answers |]).
  contradiction.
Qed.

Lemma axios_answers t :
  In t Axios.server -> forall args, answers (callback t args).
Proof.
  intros Ht. simpl in Ht.
  repeat (destruct Ht as [<- | Ht]; [simpl callback; handler_answers |]).
  contradiction.
Qed.

(** The same holds behind the argument check of the protocol layer. *)
Lemma call_tool_answers {C E} (t : RegisteredTool C E) :
  (forall args, answers (callback t args)) ->
  forall arguments, answers (call_tool t arguments).
Proof.
  intros Ht arguments tr w. unfold call_tool.
  destruct (Zod.safeParse (paramsSchema t) arguments) as [args | issues].
  - apply Ht.
  - eexists _, _. reflexivity.
Qed.


End Answers.

(** ** Objects *)

Lemma lookup_set_same k v o : lookup k (set k v o) = Some v.
Proof.
  induction o as [| [k' v'] o IH]; simpl.
  - now rewrite String.eqb_refl.
  - destruct (String.eqb k k') eqn:Ek; simpl; rewrite Ek; [reflexivity | exact IH].
Qed.

Lemma lookup_set_other k k' v o :
  String.eqb k k' = false -> lookup k (set k' v o) = lookup k o.
Proof.
  intros Hk. induction o as [| [k1 v1] o IH]; simpl.
  - now rewrite Hk.
  - destruct (String.eqb k' k1) eqn:E1; simpl.
    + apply String.eqb_eq in E1. subst k1. now rewrite Hk.
    + now rewrite IH.
Qed.

Lemma lookup_omit k ks o :
  lookup k (omit ks o) = if mem k ks then None else lookup k o.
Proof.
  induction o as [| [k' v'] o IH]; simpl.
  - now destruct (mem k ks).
  - destruct (mem k' ks) eqn:Em; simpl.
    + rewrite IH. destruct (String.eqb k k') eqn:Ek; [| reflexivity].
      apply String.eqb_eq in Ek. subst. now rewrite Em.
    + rewrite IH. destruct (String.eqb k k') eqn:Ek; [| reflexivity].
      apply String.eqb_eq in Ek. subst. now rewrite Em.
Qed.

Lemma get_omit k ks o :
  mem k ks = false -> get (omit ks o) k = get o k.
Proof. intros H. unfold get. now rewrite lookup_omit, H. Qed.

Lemma omit_omit ks ks' o :
  (forall k, mem k ks' = true -> mem k ks = true) ->
  omit ks (omit ks' o) = omit ks o.
Proof.
  intros Hincl. induction o as [| [k v] o IH]; simpl; [reflexivity |].
  destruct (mem k ks') eqn:E'; simpl.
  - rewrite (Hincl _ E'). simpl. exact IH.
  - destruct (mem k ks); simpl; now rewrite IH.
Qed.

Lemma get_of_lookup k o v : lookup k o = Some v -> get o k = v.
Proof. intros H. unfold get. now rewrite H. Qed.

Lemma get_omit_self k ks o : mem k ks = true -> get (omit ks o) k = JUndefined.
Proof. intros H. unfold get. now rewrite lookup_omit, H. Qed.

Lemma truthy_nonempty s : s <> "" -> truthy (JStr s) = true.
Proof.
  intros H. simpl. destruct (String.eqb s "") eqn:E; [| reflexivity].
  apply String.eqb_eq in E. contradiction.
Qed.

(** ** String-typed content *)

(** Unfolds a handler down to the oracle and the parser. *)
Ltac run_handler :=
  unfold Sdk.client_call, Axios.fingertipApi_get, Axios.fingertipApi_post,
    Axios.fingertipApi_patch, Axios.fingertipApi_delete,
    SdkContent.JSON_parse_or_throw, Axios.JSON_parse_or_throw;
  unfold run, try_catch, bind, ret, throw, await, console_error, start;
  simpl.

Section Content.
Context {RT : Runtime}.

Lemma valid_json_nonempty s v : JSON_parse s = Parsed v -> s <> "".
Proof. intros H ->. exact (JSON_parse_empty v H). Qed.

(** The tools that take [content] as a string. *)
Lemma string_content_tools :
  map name (filter (fun t => string_content (paramsSchema t)) SdkContent.server) =
    ["update-page-theme"; "update-block"; "create-block"] /\
  map name (filter (fun t => string_content (paramsSchema t)) Axios.server) =
    ["create-block"; "update-page-theme"; "update-block"] /\
  filter (fun t => string_content (paramsSchema t))
    (Summary.server ++ Initial.server ++ SdkJson.server) = [].
Proof. repeat split; reflexivity. Qed.

(** C4. In every tool that takes [content] as a string, a content that is
    valid JSON goes out as the [content] field of the one request sent, and
    the field is the value [JSON.parse] gives for that string. *)
Theorem content_goes_out_parsed (s : string) (v : Value) :
  JSON_parse s = Parsed v ->
  (forall t, In t SdkContent.server -> string_content (paramsSchema t) = true ->
     forall args tr, lookup "content" args = Some (JStr s) ->
     exists c body,
       calls (snd (run (callback t args) tr)) = [c] /\
       sdk_body c = Some (JObj body) /\
       lookup "content" body = Some v) /\
  (forall t, In t Axios.server -> string_content (paramsSchema t) = true ->
     forall args tr, lookup "content" args = Some (JStr s) ->
     exists c body,
       calls (snd (run (callback t args) tr)) = [c] /\
       Axios.body c = Some (JObj body) /\
       lookup "content" body = Some v).
Proof.
  intros Hparse.
  pose proof (truthy_nonempty s (valid_json_nonempty s v Hparse)) as Htruthy.
  simpl in Htruthy.
  split; intros t Ht Hstr args tr Hcontent; simpl in Ht;
    repeat (destruct Ht as [<- | Ht]; [try (vm_compute in Hstr; discriminate Hstr) |]);
    try contradiction;
    simpl callback;
    unfold SdkContent.update_page_theme, SdkContent.update_block,
      SdkContent.create_block, Axios.update_page_theme, Axios.update_block,
      Axios.create_block;
    rewrite (get_of_lookup _ _ _ Hcontent); run_handler;
    rewrite Htruthy; simpl; rewrite Hparse; simpl;
    match goal with |- context [tr ?c] => destruct (tr c); simpl end;
    eexists _, _; (split; [reflexivity |]); (split; [reflexivity |]);
    first [apply lookup_set_same | reflexivity].
Qed.

Lemma sdk_parse_failure t s msg args tr :
  In t SdkContent.server -> string_content (paramsSchema t) = true ->
  s <> "" -> JSON_parse s = SyntaxError msg ->
  lookup "content" args = Some (JStr s) ->
  run (callback t args) tr =
    (Normal (text_envelope ("Error parsing content JSON: " ++ msg)), start).
Proof.
  intros Ht Hstr Hne Hparse Hcontent.
  pose proof (truthy_nonempty s Hne) as Htruthy. simpl in Htruthy.
  simpl in Ht.
  repeat (destruct Ht as [<- | Ht]; [try (vm_compute in Hstr; discriminate Hstr) |]);
    try contradiction;
    simpl callback;
    unfold SdkContent.update_page_theme, SdkContent.update_block,
      SdkContent.create_block;
    rewrite (get_of_lookup _ _ _ Hcontent); run_handler;
    rewrite Htruthy; simpl; rewrite Hparse; reflexivity.
Qed.

Lemma axios_parse_failure t s msg args tr :
  In t Axios.server -> string_content (paramsSchema t) = true ->
  s <> "" -> JSON_parse s = SyntaxError msg ->
  lookup "content" args = Some (JStr s) ->
  run (callback t args) tr =
    (Normal (text_envelope ("Error parsing content JSON: " ++ msg)), start).
Proof.
  intros Ht Hstr Hne Hparse Hcontent.
  pose proof (truthy_nonempty s Hne) as Htruthy. simpl in Htruthy.
  simpl in Ht.
  repeat (destruct Ht as [<- | Ht]; [try (vm_compute in Hstr; discriminate Hstr) |]);
    try contradiction;
    simpl callback;
    unfold Axios.update_page_theme, Axios.update_block, Axios.create_block;
    rewrite (get_of_lookup _ _ _ Hcontent); run_handler;
    rewrite Htruthy; simpl; rewrite Hparse; reflexivity.
Qed.

(** C5. In every tool that takes [content] as a string, a non-empty content
    that [JSON.parse] rejects ends the invocation with the parse-error
    envelope, and nothing has been sent upstream. *)
Theorem malformed_content_is_not_sent (s msg : string) :
  s <> "" ->
  JSON_parse s = SyntaxError msg ->
  (forall t, In t SdkContent.server -> string_content (paramsSchema t) = true ->
     forall args tr, lookup "content" args = Some (JStr s) ->
     fst (run (callback t args) tr) =
       Normal (text_envelope ("Error parsing content JSON: " ++ msg)) /\
     calls (snd (run (callback t args) tr)) = []) /\
  (forall t, In t Axios.server -> string_content (paramsSchema t) = true ->
     forall args tr, lookup "content" args = Some (JStr s) ->
     fst (run (callback t args) tr) =
       Normal (text_envelope ("Error parsing content JSON: " ++ msg)) /\
     calls (snd (run (callback t args) tr)) = []).
Proof.
  intros Hne Hparse.
  split; intros t Ht Hstr args tr Hcontent.
  - now rewrite (sdk_parse_failure t s msg args tr).
  - now rewrite (axios_parse_failure t s msg args tr).
Qed.

Lemma content_among k :
  mem k ["content"] = true ->
  forall id, mem k [id; "content"] = true.
Proof.
  simpl. intros H id. rewrite H. apply orb_true_r.
Qed.

(** C10. In every tool that takes [content] as a string, the empty string
    is treated as no content at all: the invocation runs exactly as it does
    on the same arguments without the [content] key, the request is sent (so
    no parse error was raised), and its body has no [content] key. *)
Theorem empty_content_is_no_content :
  (forall t, In t SdkContent.server -> string_content (paramsSchema t) = true ->
     forall args tr, lookup "content" args = Some (JStr "") ->
     run (callback t args) tr = run (callback t (omit ["content"] args)) tr /\
     exists c body,
       calls (snd (run (callback t args) tr)) = [c] /\
       sdk_body c = Some (JObj body) /\
       lookup "content" body = None) /\
  (forall t, In t Axios.server -> string_content (paramsSchema t) = true ->
     forall args tr, lookup "content" args = Some (JStr "") ->
     run (callback t args) tr = run (callback t (omit ["content"] args)) tr /\
     exists c body,
       calls (snd (run (callback t args) tr)) = [c] /\
       Axios.body c = Some (JObj body) /\
       lookup "content" body = None).
Proof.
  split; intros t Ht Hstr args tr Hcontent; simpl in Ht;
    repeat (destruct Ht as [<- | Ht]; [try (vm_compute in Hstr; discriminate Hstr) |]);
    try contradiction;
    simpl callback;
    unfold SdkContent.update_page_theme, SdkContent.update_block,
      SdkContent.create_block, Axios.update_page_theme, Axios.update_block,
      Axios.create_block;
    rewrite ?(get_omit_self "content" ["content"]) by reflexivity;
    rewrite ?get_omit by reflexivity;
    rewrite ?omit_omit by (intros k Hk; apply content_among; exact Hk);
    rewrite (get_of_lookup _ _ _ Hcontent); run_handler;
    (split; [reflexivity |]);
    match goal with |- context [tr ?c] => destruct (tr c); simpl end;
    eexists _, _; (split; [reflexivity |]); (split; [reflexivity |]);
    rewrite ?lookup_set_other by reflexivity;
    first [reflexivity | now rewrite lookup_omit].
Qed.

End Content.

(** ** Validation before dispatch *)

Lemma mem_In k ks : In k ks -> mem k ks = true.
Proof.
  unfold mem. intros H. apply existsb_exists. exists k. split; [exact H |].
  apply String.eqb_refl.
Qed.

Section Validation.
Context {RT : Runtime}.

Lemma uuid_typed_rejects ty s :
  Zod.uuid_typed ty = true -> is_uuid s = false -> Zod.parse ty (JStr s) = None.
Proof.
  intros Hty Hs. induction ty; simpl in *; try discriminate Hty.
  - now rewrite Hs.
  - now apply IHty.
  - now apply IHty.
Qed.

Lemma parse_shape_reports sh input k ty :
  In (k, ty) sh -> Zod.parse ty (get input k) = None ->
  In k (snd (Zod.parse_shape sh input)).
Proof.
  induction sh as [| [k' t'] sh IH]; simpl; [contradiction |].
  intros [H | H] Hparse.
  - inversion H; subst.
    destruct (Zod.parse_shape sh input) as [out issues].
    rewrite Hparse. simpl. now left.
  - specialize (IH H Hparse).
    destruct (Zod.parse_shape sh input) as [out issues]. simpl in IH.
    destruct (Zod.parse t' (get input k')) as [[] |]; simpl; auto.
Qed.

Lemma safeParse_invalid sh input k :
  In k (snd (Zod.parse_shape sh input)) ->
  Zod.safeParse sh input = Zod.Invalid (snd (Zod.parse_shape sh input)).
Proof.
  unfold Zod.safeParse.
  destruct (Zod.parse_shape sh input) as [out [| i issues]]; simpl;
    [contradiction | reflexivity].
Qed.

Lemma call_tool_rejects {C E} (t : RegisteredTool C E) k ty s arguments tr :
  In (k, ty) (paramsSchema t) -> Zod.uuid_typed ty = true ->
  is_uuid s = false -> lookup k arguments = Some (JStr s) ->
  exists issues,
    In k issues /\
    run (call_tool t arguments) tr =
      (Normal (text_envelope (validation_error_text (name t) issues)), start).
Proof.
  intros Hin Hty Hs Hk.
  exists (snd (Zod.parse_shape (paramsSchema t) arguments)).
  assert (Hissue : In k (snd (Zod.parse_shape (paramsSchema t) arguments))).
  { apply parse_shape_reports with (ty := ty); [exact Hin |].
    rewrite (get_of_lookup _ _ _ Hk). now apply uuid_typed_rejects. }
  split; [exact Hissue |].
  unfold run, call_tool. now rewrite (safeParse_invalid _ _ _ Hissue).
Qed.

Lemma ids_are_uuids_typed sh k ty :
  ids_are_uuids sh = true -> In (k, ty) sh -> In k id_keys ->
  Zod.uuid_typed ty = true.
Proof.
  unfold ids_are_uuids. rewrite forallb_forall. intros Hall Hin Hk.
  specialize (Hall _ Hin). cbv beta in Hall. unfold fst, snd in Hall.
  now rewrite (mem_In _ _ Hk) in Hall.
Qed.

Lemma sdk_servers_ids t :
  In t (Summary.server ++ Initial.server ++ SdkJson.server ++ SdkContent.server) ->
  ids_are_uuids (paramsSchema t) = true.
Proof.
  intros Ht. simpl in Ht.
  repeat (destruct Ht as [<- | Ht]; [reflexivity |]). contradiction.
Qed.

Lemma axios_server_ids t :
  In t Axios.server -> ids_are_uuids (paramsSchema t) = true.
Proof.
  intros Ht. simpl in Ht.
  repeat (destruct Ht as [<- | Ht]; [reflexivity |]). contradiction.
Qed.

(** C2. For every registered tool of every build and every identifier
    parameter of its shape ([siteId], [pageId], [blockId]): when the
    arguments give that parameter a string that fails the UUID test, the
    invocation ends with the validation-error envelope, which names the
    parameter, and no upstream call was made. *)
Theorem invalid_uuid_is_rejected (k s : string) :
  In k id_keys ->
  is_uuid s = false ->
  (forall t, In t (Summary.server ++ Initial.server ++ SdkJson.server ++ SdkContent.server) ->
     forall ty, In (k, ty) (paramsSchema t) ->
     forall arguments tr, lookup k arguments = Some (JStr s) ->
     exists issues,
       In k issues /\
       fst (run (call_tool t arguments) tr) =
         Normal (text_envelope (validation_error_text (name t) issues)) /\
       calls (snd (run (call_tool t arguments) tr)) = []) /\
  (forall t, In t Axios.server ->
     forall ty, In (k, ty) (paramsSchema t) ->
     forall arguments tr, lookup k arguments = Some (JStr s) ->
     exists issues,
       In k issues /\
       fst (run (call_tool t arguments) tr) =
         Normal (text_envelope (validation_error_text (name t) issues)) /\
       calls (snd (run (call_tool t arguments) tr)) = []).
Proof.
  intros Hk Hs. split; intros t Ht ty Hin arguments tr Harg.
  - pose proof (ids_are_uuids_typed _ _ _ (sdk_servers_ids t Ht) Hin Hk) as Hty.
    destruct (call_tool_rejects t k ty s arguments tr Hin Hty Hs Harg)
      as (issues & Hissue & Hrun).
    exists issues. rewrite Hrun. auto.
  - pose proof (ids_are_uuids_typed _ _ _ (axios_server_ids t Ht) Hin Hk) as Hty.
    destruct (call_tool_rejects t k ty s arguments tr Hin Hty Hs Harg)
      as (issues & Hissue & Hrun).
    exists issues. rewrite Hrun. auto.
Qed.

(** ** Defaults of create-site *)

(** C6, at its failing input.  The axios build registers create-site with a
    shape in which [pages] is required, so an invocation that leaves [pages]
    out is rejected before the handler runs: no request is sent, and the
    default page that the handler holds for that case is never used. *)
Theorem axios_create_site_requires_pages :
  forall tr : Transport Axios.Request Axios.Thrown,
  exists t,
    find_tool "create-site" Axios.server = Some t /\
    lookup "pages" acme = None /\
    run (call_tool t acme) tr =
      (Normal (text_envelope (validation_error_text "create-site" ["pages"])), start).
Proof.
  intros tr. eexists. split; [reflexivity |]. split; reflexivity.
Qed.

(** The body each handler builds when [status] and [pages] are left out. *)
Lemma axios_create_site_handler_defaults args tr :
  lookup "status" args = None -> lookup "pages" args = None ->
  exists c body,
    calls (snd (run (Axios.create_site args) tr)) = [c] /\
    Axios.body c = Some (JObj body) /\
    lookup "status" body = Some (JStr "UNPUBLISHED") /\
    lookup "pages" body =
      Some (JArr [JObj [("slug", JStr "index");
                        ("name", get args "name");
                        ("description", js_or (get args "description") JNull);
                        ("pageTheme", JObj [("content", JObj []);
                                            ("componentPageThemeId", JNull)]);
                        ("blocks", JArr [])]]).
Proof.
  intros Hs Hp. unfold Axios.create_site, get. rewrite Hs, Hp. run_handler.
  destruct (tr _); simpl; eexists _, _; repeat split; reflexivity.
Qed.

Lemma sdk_create_site_defaults :
  forall tr : Transport Sdk.Call Sdk.Error,
  (forall t, In t [Summary.server; SdkJson.server; SdkContent.server] ->
     exists tool c body pages_,
       find_tool "create-site" t = Some tool /\
       calls (snd (run (call_tool tool acme) tr)) = [c] /\
       nth_error (Sdk.arguments c) 0 = Some (JObj body) /\
       lookup "status" body = Some (JStr "UNPUBLISHED") /\
       lookup "pages" body = Some (JArr [JObj pages_]) /\
       lookup "slug" pages_ = Some (JStr "index") /\
       lookup "pageTheme" pages_ =
         Some (JObj [("content", JObj []); ("componentPageThemeId", JNull)])) /\
  (exists tool c body pages_,
     find_tool "create-site" Initial.server = Some tool /\
     calls (snd (run (call_tool tool acme) tr)) = [c] /\
     nth_error (Sdk.arguments c) 0 = Some (JObj body) /\
     lookup "status" body = Some (JStr "ENABLED") /\
     lookup "pages" body = Some (JArr [JObj pages_]) /\
     lookup "slug" pages_ = Some (JStr "home") /\
     lookup "blocks" pages_ = Some (JArr [])).
Proof.
  intros tr. split.
  - intros t Ht. simpl in Ht.
    repeat (destruct Ht as [<- | Ht];
            [ eexists _, _, _, _; split; [reflexivity |];
              unfold run, call_tool; simpl;
              unfold Summary.create_site, SdkJson.create_site, SdkContent.create_site;
              run_handler; destruct (tr _); simpl;
              try destruct (_ || _); simpl; repeat split; reflexivity |]).
    contradiction.
  - eexists _, _, _, _. split; [reflexivity |].
    unfold run, call_tool; simpl. unfold Initial.create_site. run_handler.
    destruct (tr _); simpl; [destruct (_ || _) |]; simpl; repeat split; reflexivity.
Qed.

End Validation.

(** ** Bodies of the update tools *)

Section Updates.
Context {RT : Runtime}.

Lemma same_on_field k args body :
  lookup k body =
    (if negb (Sdk.is_undefined (get args k)) then Some (get args k) else None) ->
  match lookup k args with
  | None => lookup k body = None
  | Some v => v <> JUndefined -> lookup k body = Some v
  end.
Proof.
  unfold get. destruct (lookup k args) as [v |]; simpl; [| auto].
  intros -> Hv. destruct v; simpl; congruence.
Qed.

Lemma same_on_copied k args body :
  lookup k body = lookup k args ->
  match lookup k args with
  | None => lookup k body = None
  | Some v => v <> JUndefined -> lookup k body = Some v
  end.
Proof. intros ->. destruct (lookup k args); auto. Qed.

(** Closes one field of [same_on] for a body built key by key, and for a
    body made by the rest pattern. *)
Ltac split_conditions :=
  repeat match goal with
         | |- context [if ?c then _ else _] => destruct c
         end.

Ltac field_agrees :=
  first
    [ apply same_on_copied;
      rewrite ?lookup_set_other by reflexivity;
      rewrite lookup_omit; reflexivity
    | apply same_on_field; split_conditions; reflexivity ].

Ltac fields_agree :=
  let k := fresh "k" in
  let Hin := fresh "Hin" in
  intros k Hin; vm_compute in Hin;
  repeat (destruct Hin as [<- | Hin]; [field_agrees |]);
  contradiction.

Ltac content_stays_absent :=
  let H := fresh "Hnone" in
  intros H;
  first
    [ rewrite ?lookup_set_other by reflexivity; rewrite lookup_omit;
      first [reflexivity | exact H]
    | unfold get; try rewrite H; simpl; split_conditions; reflexivity
    | exfalso;
      match goal with
      | E : truthy (get _ "content") = true |- _ =>
          unfold get in E; rewrite H in E; simpl in E; discriminate E
      end ].

Ltac one_request tr :=
  left;
  match goal with |- context [tr ?c] => destruct (tr c); simpl end;
  try match goal with
      | |- context [if negb (truthy ?v) || ?b then _ else _] =>
          destruct (negb (truthy v) || b); simpl
      end;
  eexists _, _; (split; [reflexivity |]); (split; [reflexivity |]);
  (split; [fields_agree | content_stays_absent]).

Lemma summary_updates t :
  In t Summary.server -> mem (name t) update_tools = true ->
  forall args tr,
    update_contract sdk_body (paramsSchema t) args (snd (run (callback t args) tr)).
Proof.
  intros Ht Hname args tr. simpl in Ht.
  repeat (destruct Ht as [<- | Ht]; [try (vm_compute in Hname; discriminate Hname) |]);
    try contradiction; simpl callback; simpl paramsSchema;
    unfold Summary.update_page, Summary.update_page_theme, Summary.update_block;
    run_handler; one_request tr.
Qed.

(** The three ways a tool with a string [content] can go. *)
Ltac content_cases args tr :=
  match goal with |- context [JSON_parse _] => idtac end;
  destruct (truthy (get args "content")) eqn:Etruthy; simpl;
  [ destruct (JSON_parse (ToString (get args "content"))) eqn:Eparse; simpl;
    [ one_request tr
    | right; repeat split; solve [eauto] ]
  | one_request tr ].

Lemma sdk_json_updates t :
  In t SdkJson.server -> mem (name t) update_tools = true ->
  forall args tr,
    update_contract sdk_body (paramsSchema t) args (snd (run (callback t args) tr)).
Proof.
  intros Ht Hname args tr. simpl in Ht.
  repeat (destruct Ht as [<- | Ht]; [try (vm_compute in Hname; discriminate Hname) |]);
    try contradiction; simpl callback; simpl paramsSchema;
    unfold SdkJson.update_page, SdkJson.update_page_theme, SdkJson.update_block;
    run_handler; one_request tr.
Qed.

Lemma sdk_content_updates t :
  In t SdkContent.server -> mem (name t) update_tools = true ->
  forall args tr,
    update_contract sdk_body (paramsSchema t) args (snd (run (callback t args) tr)).
Proof.
  intros Ht Hname args tr. simpl in Ht.
  repeat (destruct Ht as [<- | Ht]; [try (vm_compute in Hname; discriminate Hname) |]);
    try contradiction; simpl callback; simpl paramsSchema;
    unfold SdkContent.update_page, SdkContent.update_page_theme,
      SdkContent.update_block;
    run_handler; first [content_cases args tr | one_request tr].
Qed.

Lemma axios_updates t :
  In t Axios.server -> mem (name t) update_tools = true ->
  forall args tr,
    update_contract Axios.body (paramsSchema t) args (snd (run (callback t args) tr)).
Proof.
  intros Ht Hname args tr. simpl in Ht.
  repeat (destruct Ht as [<- | Ht]; [try (vm_compute in Hname; discriminate Hname) |]);
    try contradiction; simpl callback; simpl paramsSchema;
    unfold Axios.update_page, Axios.update_page_theme, Axios.update_block;
    run_handler; first [content_cases args tr | one_request tr].
Qed.


End Updates.

(** ** Texts of failed invocations *)

Section Failures.
Context {RT : Runtime}.

(** Runs a handler against a transport that rejects every call. *)
Ltac rejected Hrej :=
  run_handler;
  repeat match goal with
         | |- context [truthy (get ?a "content")] =>
             destruct (truthy (get a "content")); simpl
         | |- context [JSON_parse ?x] => destruct (JSON_parse x); simpl
         end;
  rewrite ?Hrej; simpl;
  let Hcalls := fresh "Hcalls" in
  intros Hcalls; first [reflexivity | congruence].

Lemma sdk_json_rejected t args tr e :
  In t (SdkJson.server ++ SdkContent.server) ->
  (forall c, tr c = Rejected e) ->
  calls (snd (run (callback t args) tr)) <> [] ->
  fst (run (callback t args) tr) =
    Normal (text_envelope ("Error: " ++ Sdk.message e)).
Proof.
  intros Ht Hrej. simpl in Ht.
  repeat (destruct Ht as [<- | Ht];
          [ simpl callback;
            unfold SdkJson.get_sites, SdkJson.get_site, SdkJson.create_site,
              SdkJson.get_page, SdkJson.update_page, SdkJson.get_page_blocks,
              SdkJson.get_page_theme, SdkJson.update_page_theme, SdkJson.update_block,
              SdkContent.get_sites, SdkContent.get_site, SdkContent.create_site,
              SdkContent.get_page, SdkContent.update_page, SdkContent.get_page_blocks,
              SdkContent.get_page_theme, SdkContent.update_page_theme,
              SdkContent.update_block, SdkContent.create_block;
            rejected Hrej |]).
  contradiction.
Qed.

Lemma axios_rejected t args tr e :
  In t Axios.server ->
  (forall c, tr c = Rejected e) ->
  calls (snd (run (callback t args) tr)) <> [] ->
  fst (run (callback t args) tr) =
    Normal (text_envelope ("Error: " ++ ToString (Axios.getErrorMessage e))).
Proof.
  intros Ht Hrej. simpl in Ht.
  repeat (destruct Ht as [<- | Ht];
          [ simpl callback;
            unfold Axios.ping, Axios.get_sites, Axios.get_site, Axios.create_site,
              Axios.get_page, Axios.update_page, Axios.get_page_blocks,
              Axios.create_block, Axios.get_page_theme, Axios.update_page_theme,
              Axios.get_block, Axios.update_block, Axios.delete_block;
            rejected Hrej |]).
  contradiction.
Qed.

Lemma digest_rejected t args :
  In t (Summary.server ++ Initial.server) ->
  exists fixed,
    String.prefix "Failed to " fixed = true /\
    forall tr e, (forall c, tr c = Rejected e) ->
      fst (run (callback t args) tr) = Normal (text_envelope fixed).
Proof.
  intros Ht. simpl in Ht.
  repeat (destruct Ht as [<- | Ht];
          [ eexists; split;
            [| intros tr e Hrej; simpl callback;
               unfold Summary.get_sites, Summary.get_site, Summary.create_site,
                 Summary.get_page, Summary.update_page, Summary.get_page_blocks,
                 Summary.get_page_theme, Summary.update_page_theme,
                 Summary.update_block, Initial.get_sites, Initial.get_site,
                 Initial.create_site;
               run_handler; rewrite Hrej; simpl; reflexivity ];
            reflexivity |]).
  contradiction.
Qed.




End Failures.

(** ** One call per invocation, and no memory *)

Section EffectRules.
Context {C E : Type}.

Lemma world_eta (w : World C) :
  w = {| calls := calls w ++ []; stderr := stderr w ++ [] |}.
Proof. destruct w; simpl. now rewrite !app_nil_r. Qed.

Lemma effect_ret {A} (a : A) n : effect (C := C) (E := E) n (ret a).
Proof.
  intros tr. exists (Normal a), [], []. split; [simpl; lia |].
  intros w. unfold ret. now rewrite <- world_eta.
Qed.

Lemma effect_throw {A} (e : E) n : effect (C := C) (A := A) n (throw e).
Proof.
  intros tr. exists (Abrupt e), [], []. split; [simpl; lia |].
  intros w. unfold throw. now rewrite <- world_eta.
Qed.

Lemma effect_console line n : effect (C := C) (E := E) n (console_error line).
Proof.
  intros tr. exists (Normal tt), [], [line]. split; [simpl; lia |].
  intros w. unfold console_error. now rewrite app_nil_r.
Qed.

Lemma effect_await (c : C) n : effect (E := E) (S n) (await c).
Proof.
  intros tr. unfold await.
  destruct (tr c) as [v | e].
  - exists (Normal v), [c], []. split; [simpl; lia |]. intros w. now rewrite app_nil_r.
  - exists (Abrupt e), [c], []. split; [simpl; lia |]. intros w. now rewrite app_nil_r.
Qed.

Lemma effect_bind {A B} (m : M C E A) (k : A -> M C E B) a b :
  effect a m -> (forall x, effect b (k x)) -> effect (a + b) (bind m k).
Proof.
  intros Hm Hk tr. destruct (Hm tr) as (r & cs & errs & Hlen & Hrun).
  destruct r as [x | e].
  - destruct (Hk x tr) as (r' & cs' & errs' & Hlen' & Hrun').
    exists r', (cs ++ cs')%list, (errs ++ errs')%list. split.
    + rewrite length_app. lia.
    + intros w. unfold bind. rewrite Hrun, Hrun'. simpl. now rewrite !app_assoc.
  - exists (Abrupt e), cs, errs. split; [lia |].
    intros w. unfold bind. now rewrite Hrun.
Qed.

Lemma effect_try_catch {A} (m : M C E A) (h : E -> M C E A) a b :
  effect a m -> (forall e, effect b (h e)) -> effect (a + b) (try_catch m h).
Proof.
  intros Hm Hh tr. destruct (Hm tr) as (r & cs & errs & Hlen & Hrun).
  destruct r as [x | e].
  - exists (Normal x), cs, errs. split; [lia |].
    intros w. unfold try_catch. now rewrite Hrun.
  - destruct (Hh e tr) as (r' & cs' & errs' & Hlen' & Hrun').
    exists r', (cs ++ cs')%list, (errs ++ errs')%list. split.
    + rewrite length_app. lia.
    + intros w. unfold try_catch. rewrite Hrun, Hrun'. simpl. now rewrite !app_assoc.
Qed.

(** A computation that sends nothing leaves the call log as it was. *)
Lemma effect_silent {A} (m : M C E A) tr w :
  effect 0 m -> calls (snd (m tr w)) = calls w.
Proof.
  intros Hm. destruct (Hm tr) as (r & cs & errs & Hlen & Hrun).
  rewrite Hrun. simpl. destruct cs; [apply app_nil_r | simpl in Hlen; lia].
Qed.

End EffectRules.

Lemma effect_read v k n : effect n (Sdk.read v k).
Proof.
  unfold Sdk.read, Sdk.TypeError.
  destruct (member v k); [apply effect_ret | apply effect_throw].
Qed.

Lemma effect_traverse {A B} (f : A -> M Sdk.Call Sdk.Error B) l :
  (forall x, effect 0 (f x)) -> effect 0 (Sdk.traverse f l).
Proof.
  intros Hf. induction l as [| x l IH]; simpl.
  - apply effect_ret.
  - apply (effect_bind _ _ 0 0); [apply Hf |]. intros y.
    apply (effect_bind _ _ 0 0); [apply IH |]. intros ys. apply effect_ret.
Qed.

(** Finds the effect of a handler body: [silent] for the parts that send
    nothing, [one_call] for the body around the awaited call. *)
Ltac silent :=
  repeat match goal with
         | |- effect 0 (ret _) => apply effect_ret
         | |- effect 0 (throw _) => apply effect_throw
         | |- effect 0 (console_error _) => apply effect_console
         | |- effect 0 (Sdk.read _ _) => apply effect_read
         | |- effect 0 (Sdk.TypeError _) => apply effect_throw
         | |- effect 0 (Sdk.array_map _ ?v _) =>
             unfold Sdk.array_map; destruct v
         | |- effect 0 (Sdk.traverse _ _) => apply effect_traverse; intros ?
         | |- effect 0 (SdkContent.JSON_parse_or_throw _) =>
             unfold SdkContent.JSON_parse_or_throw
         | |- effect 0 (Axios.JSON_parse_or_throw _) =>
             unfold Axios.JSON_parse_or_throw
         | |- effect 0 (bind _ _) => apply (effect_bind _ _ 0 0); [| intros ?]
         | |- effect 0 (try_catch _ _) => apply (effect_try_catch _ _ 0 0); [| intros ?]
         | |- effect 0 (if ?c then _ else _) => destruct c
         | |- effect 0 (match ?x with _ => _ end) => destruct x
         end.

Ltac one_call :=
  repeat match goal with
         | |- effect 1 (ret _) => apply effect_ret
         | |- effect 1 (await _) => apply effect_await
         | |- effect 1 (try_catch _ _) =>
             apply (effect_try_catch _ _ 1 0); [| intros ?; silent]
         | |- effect 1 (bind (await _) _) =>
             apply (effect_bind _ _ 1 0); [apply effect_await | intros ?; silent]
         | |- effect 1 (bind _ _) =>
             apply (effect_bind _ _ 0 1); [silent | intros ?]
         | |- effect 1 (if ?c then _ else _) => destruct c
         | |- effect 1 (match ?x with _ => _ end) => destruct x
         end.

Ltac handler_effect :=
  intros args; cbv zeta;
  unfold Sdk.client_call, Axios.fingertipApi_get, Axios.fingertipApi_post,
    Axios.fingertipApi_patch, Axios.fingertipApi_delete;
  one_call.

Section Effects.
Context {RT : Runtime}.

Lemma sdk_effect t :
  In t (Summary.server ++ Initial.server ++ SdkJson.server ++ SdkContent.server) ->
  forall args, effect 1 (callback t args).
Proof.
  intros Ht. simpl in Ht.
  repeat (destruct Ht as [<- | Ht];
          [ simpl callback;
            unfold Summary.get_sites, Summary.get_site, Summary.create_site,
              Summary.get_page, Summary.update_page, Summary.get_page_blocks,
              Summary.get_page_theme, Summary.update_page_theme,
              Summary.update_block, Initial.get_sites, Initial.get_site,
              Initial.create_site,
              SdkJson.get_sites, SdkJson.get_site, SdkJson.create_site,
              SdkJson.get_page, SdkJson.update_page, SdkJson.get_page_blocks,
              SdkJson.get_page_theme, SdkJson.update_page_theme, SdkJson.update_block,
              SdkContent.get_sites, SdkContent.get_site, SdkContent.create_site,
              SdkContent.get_page, SdkContent.update_page, SdkContent.get_page_blocks,
              SdkContent.get_page_theme, SdkContent.update_page_theme,
              SdkContent.update_block, SdkContent.create_block;
            handler_effect |]).
  contradiction.
Qed.

Lemma axios_effect t :
  In t Axios.server -> forall args, effect 1 (callback t args).
Proof.
  intros Ht. simpl in Ht.
  repeat (destruct Ht as [<- | Ht];
          [ simpl callback;
            unfold Axios.ping, Axios.get_sites, Axios.get_site, Axios.create_site,
              Axios.get_page, Axios.update_page, Axios.get_page_blocks,
              Axios.create_block, Axios.get_page_theme, Axios.update_page_theme,
              Axios.get_block, Axios.update_block, Axios.delete_block;
            handler_effect |]).
  contradiction.
Qed.

(** X1. An invocation of any tool of any build keeps no memory and sends at
    most one request: what it returns, the calls it adds to the log (none or
    one) and the lines it writes do not depend on what was logged before. *)
Theorem invocations_are_independent :
  (forall t, In t (Summary.server ++ Initial.server ++ SdkJson.server ++ SdkContent.server) ->
     forall args (tr : Transport Sdk.Call Sdk.Error),
     exists r cs errs,
       length cs <= 1 /\
       forall w, callback t args tr w =
                 (r, {| calls := calls w ++ cs; stderr := stderr w ++ errs |})) /\
  (forall t, In t Axios.server ->
     forall args (tr : Transport Axios.Request Axios.Thrown),
     exists r cs errs,
       length cs <= 1 /\
       forall w, callback t args tr w =
                 (r, {| calls := calls w ++ cs; stderr := stderr w ++ errs |})).
Proof.
  split; intros t Ht args tr.
  - exact (sdk_effect t Ht args tr).
  - exact (axios_effect t Ht args tr).
Qed.

End Effects.

(** ** The request and the answer of the JSON builds *)

Lemma exactly_one_call {C E A} (c : C) (k : Value -> M C E A) (h : E -> M C E A) :
  (forall x, effect 0 (k x)) -> (forall e, effect 0 (h e)) ->
  forall tr, calls (snd (run (try_catch (bind (await c) k) h) tr)) = [c].
Proof.
  intros Hk Hh tr. unfold run, try_catch, bind, await, start. simpl.
  destruct (tr c) as [v | e].
  - pose proof (effect_silent (k v) tr {| calls := [c]; stderr := [] |} (Hk v)) as Hs.
    destruct (k v tr {| calls := [c]; stderr := [] |}) as [[x | e] w']; simpl in *.
    + exact Hs.
    + rewrite (effect_silent (h e) tr w' (Hh e)). exact Hs.
  - apply (effect_silent (h e) tr {| calls := [c]; stderr := [] |} (Hh e)).
Qed.

Ltac sends_exactly_one :=
  intros args; cbv zeta;
  unfold Sdk.client_call, Axios.fingertipApi_get, Axios.fingertipApi_post,
    Axios.fingertipApi_patch, Axios.fingertipApi_delete;
  eexists; intros tr; apply exactly_one_call; intros ?; silent.

(** Runs a handler of a JSON build against a transport that settles every
    call the same way. *)
Ltac settled Hset :=
  run_handler;
  repeat match goal with
         | |- context [truthy (get ?a "content")] =>
             destruct (truthy (get a "content")); simpl
         | |- context [JSON_parse ?x] => destruct (JSON_parse x); simpl
         end;
  rewrite ?Hset; simpl;
  let Hcalls := fresh "Hcalls" in
  intros Hcalls; first [reflexivity | exfalso; congruence].

Ltac unfold_json_handlers :=
  unfold SdkJson.get_sites, SdkJson.get_site, SdkJson.create_site,
    SdkJson.get_page, SdkJson.update_page, SdkJson.get_page_blocks,
    SdkJson.get_page_theme, SdkJson.update_page_theme, SdkJson.update_block,
    SdkContent.get_sites, SdkContent.get_site, SdkContent.create_site,
    SdkContent.get_page, SdkContent.update_page, SdkContent.get_page_blocks,
    SdkContent.get_page_theme, SdkContent.update_page_theme,
    SdkContent.update_block, SdkContent.create_block,
    Axios.ping, Axios.get_sites, Axios.get_site, Axios.create_site,
    Axios.get_page, Axios.update_page, Axios.get_page_blocks,
    Axios.create_block, Axios.get_page_theme, Axios.update_page_theme,
    Axios.get_block, Axios.update_block, Axios.delete_block.

Section Answered.
Context {RT : Runtime}.

Lemma sdk_exactly_one t :
  In t (Summary.server ++ Initial.server ++ SdkJson.server ++ SdkContent.server) ->
  string_content (paramsSchema t) = false ->
  forall args, exists c, forall tr, calls (snd (run (callback t args) tr)) = [c].
Proof.
  intros Ht Hstr. simpl in Ht.
  repeat (destruct Ht as [<- | Ht];
          [ first
              [ discriminate Hstr
              | simpl callback;
                unfold Summary.get_sites, Summary.get_site, Summary.create_site,
                  Summary.get_page, Summary.update_page, Summary.get_page_blocks,
                  Summary.get_page_theme, Summary.update_page_theme,
                  Summary.update_block, Initial.get_sites, Initial.get_site,
                  Initial.create_site;
                unfold_json_handlers; sends_exactly_one ] |]).
  contradiction.
Qed.

Lemma axios_exactly_one t :
  In t Axios.server ->
  string_content (paramsSchema t) = false ->
  forall args, exists c, forall tr, calls (snd (run (callback t args) tr)) = [c].
Proof.
  intros Ht Hstr. simpl in Ht.
  repeat (destruct Ht as [<- | Ht];
          [ first
              [ discriminate Hstr
              | simpl callback; unfold_json_handlers; sends_exactly_one ] |]).
  contradiction.
Qed.

(** X2. A tool that does not take [content] as a string sends exactly one
    request in every invocation, and which request it sends is fixed by the
    arguments: it is the same however the call settles. *)
Theorem one_request_fixed_by_the_arguments :
  (forall t, In t (Summary.server ++ Initial.server ++ SdkJson.server ++ SdkContent.server) ->
     string_content (paramsSchema t) = false ->
     forall args, exists c,
       forall tr, calls (snd (run (callback t args) tr)) = [c]) /\
  (forall t, In t Axios.server ->
     string_content (paramsSchema t) = false ->
     forall args, exists c,
       forall tr, calls (snd (run (callback t args) tr)) = [c]).
Proof.
  split; intros t Ht Hstr args.
  - now apply sdk_exactly_one.
  - now apply axios_exactly_one.
Qed.

Lemma sdk_json_fulfilled t args tr v :
  In t SdkJson.server ->
  (forall c, tr c = Fulfilled v) ->
  calls (snd (run (callback t args) tr)) <> [] ->
  fst (run (callback t args) tr) = Normal (text_envelope (JSON_stringify_indent v 2)).
Proof.
  intros Ht Hset. simpl in Ht.
  repeat (destruct Ht as [<- | Ht];
          [simpl callback; unfold_json_handlers; settled Hset |]).
  contradiction.
Qed.

Lemma sdk_content_fulfilled t args tr v :
  In t SdkContent.server ->
  (forall c, tr c = Fulfilled v) ->
  calls (snd (run (callback t args) tr)) <> [] ->
  fst (run (callback t args) tr) = Normal (text_envelope (JSON_stringify v)).
Proof.
  intros Ht Hset. simpl in Ht.
  repeat (destruct Ht as [<- | Ht];
          [simpl callback; unfold_json_handlers; settled Hset |]).
  contradiction.
Qed.

Lemma axios_fulfilled t args tr v :
  In t Axios.server ->
  (forall c, tr c = Fulfilled v) ->
  calls (snd (run (callback t args) tr)) <> [] ->
  fst (run (callback t args) tr) = Normal (text_envelope (JSON_stringify v)).
Proof.
  intros Ht Hset. simpl in Ht.
  repeat (destruct Ht as [<- | Ht];
          [simpl callback; unfold_json_handlers; settled Hset |]).
  contradiction.
Qed.

(** X3. In the builds that answer in JSON, an invocation whose request is
    fulfilled returns the serialized payload as its text, indented by two in
    the first TypeScript build and compact in the other two. *)
Theorem fulfilled_calls_return_the_payload (v : Value) :
  (forall t args tr,
     In t SdkJson.server ->
     (forall c, tr c = Fulfilled v) ->
     calls (snd (run (callback t args) tr)) <> [] ->
     fst (run (callback t args) tr) =
       Normal (text_envelope (JSON_stringify_indent v 2))) /\
  (forall t args tr,
     In t SdkContent.server ->
     (forall c, tr c = Fulfilled v) ->
     calls (snd (run (callback t args) tr)) <> [] ->
     fst (run (callback t args) tr) = Normal (text_envelope (JSON_stringify v))) /\
  (forall t args tr,
     In t Axios.server ->
     (forall c, tr c = Fulfilled v) ->
     calls (snd (run (callback t args) tr)) <> [] ->
     fst (run (callback t args) tr) = Normal (text_envelope (JSON_stringify v))).
Proof.
  split; [| split]; intros t args tr Ht Hset Hcalls.
  - now apply sdk_json_fulfilled.
  - now apply sdk_content_fulfilled.
  - now apply axios_fulfilled.
Qed.

End Answered.

(** ** The error stream *)

Ltac logged tr :=
  run_handler;
  repeat match goal with
         | |- context [truthy (get ?a "content")] =>
             destruct (truthy (get a "content")); simpl
         | |- context [JSON_parse ?x] => destruct (JSON_parse x); simpl
         end;
  try match goal with
      | |- context [tr ?c] =>
          let Etr := fresh "Etr" in destruct (tr c) eqn:Etr; simpl
      end;
  first
    [ left; split; [reflexivity |];
      let c' := fresh "c" in
      intros c' [<- | []]; eexists; eassumption
    | left; split; [reflexivity |]; intros ? []
    | right; split; [reflexivity |];
      eexists _, _; split; [reflexivity | eassumption] ].

Section Logging.
Context {RT : Runtime}.

Lemma sdk_logging t args tr :
  In t (SdkJson.server ++ SdkContent.server) ->
  (stderr (snd (run (callback t args) tr)) = [] /\
   forall c, In c (calls (snd (run (callback t args) tr))) ->
             exists v, tr c = Fulfilled v) \/
  (stderr (snd (run (callback t args) tr)) = ["Error:"] /\
   exists c e, calls (snd (run (callback t args) tr)) = [c] /\ tr c = Rejected e).
Proof.
  intros Ht. simpl in Ht.
  repeat (destruct Ht as [<- | Ht];
          [simpl callback; unfold_json_handlers; logged tr |]).
  contradiction.
Qed.

Lemma axios_logging t args tr :
  In t Axios.server ->
  (stderr (snd (run (callback t args) tr)) = [] /\
   forall c, In c (calls (snd (run (callback t args) tr))) ->
             exists v, tr c = Fulfilled v) \/
  (stderr (snd (run (callback t args) tr)) = ["Error:"] /\
   exists c e, calls (snd (run (callback t args) tr)) = [c] /\ tr c = Rejected e).
Proof.
  intros Ht. simpl in Ht.
  repeat (destruct Ht as [<- | Ht];
          [simpl callback; unfold_json_handlers; logged tr |]).
  contradiction.
Qed.

(** X4. In the builds that answer in JSON, [console.error] is called once,
    with the label "Error:", exactly when the request was sent and rejected;
    when the request is fulfilled, and when a malformed content stops the
    invocation before any request, nothing is written. *)
Theorem only_rejected_calls_are_logged :
  (forall t args tr,
     In t (SdkJson.server ++ SdkContent.server) ->
     (stderr (snd (run (callback t args) tr)) = [] /\
      forall c, In c (calls (snd (run (callback t args) tr))) ->
                exists v, tr c = Fulfilled v) \/
     (stderr (snd (run (callback t args) tr)) = ["Error:"] /\
      exists c e, calls (snd (run (callback t args) tr)) = [c] /\ tr c = Rejected e)) /\
  (forall t args tr,
     In t Axios.server ->
     (stderr (snd (run (callback t args) tr)) = [] /\
      forall c, In c (calls (snd (run (callback t args) tr))) ->
                exists v, tr c = Fulfilled v) \/
     (stderr (snd (run (callback t args) tr)) = ["Error:"] /\
      exists c e, calls (snd (run (callback t args) tr)) = [c] /\ tr c = Rejected e)).
Proof.
  split; intros t args tr Ht.
  - now apply sdk_logging.
  - now apply axios_logging.
Qed.

End Logging.

(** ** Query parameters of get-sites *)

Section Listing.
Context {RT : Runtime}.

(** X5. The digest builds send to the listing only the filters that are
    truthy: a [pageSize] of 0 and an empty [cursor] or [search] are left
    out, a [pageSize] that is sent is sent as a string, and no other key is
    ever sent ([search] is never sent by the second dist build).  The JSON
    builds pass the arguments on as they are. *)
Theorem get_sites_query_parameters (args : Object) :
  (forall tr, exists params,
     calls (snd (run (Summary.get_sites args) tr)) =
       [ {| Sdk.operation := "api.v1.sites.list"; Sdk.arguments := [JObj params] |} ] /\
     lookup "pageSize" params =
       (if truthy (get args "pageSize")
        then Some (JStr (ToString (get args "pageSize"))) else None) /\
     lookup "cursor" params =
       (if truthy (get args "cursor") then Some (get args "cursor") else None) /\
     lookup "search" params =
       (if truthy (get args "search") then Some (get args "search") else None) /\
     (forall k, mem k ["pageSize"; "cursor"; "search"] = false ->
                lookup k params = None)) /\
  (forall tr, exists params,
     calls (snd (run (Initial.get_sites args) tr)) =
       [ {| Sdk.operation := "api.v1.sites.list"; Sdk.arguments := [JObj params] |} ] /\
     lookup "pageSize" params =
       (if truthy (get args "pageSize")
        then Some (JStr (ToString (get args "pageSize"))) else None) /\
     lookup "cursor" params =
       (if truthy (get args "cursor") then Some (get args "cursor") else None) /\
     (forall k, mem k ["pageSize"; "cursor"] = false -> lookup k params = None)) /\
  (forall tr,
     calls (snd (run (SdkJson.get_sites args) tr)) =
       [ {| Sdk.operation := "api.v1.sites.list"; Sdk.arguments := [JObj args] |} ]) /\
  (forall tr,
     calls (snd (run (SdkContent.get_sites args) tr)) =
       [ {| Sdk.operation := "v1.sites.list"; Sdk.arguments := [JObj args] |} ]) /\
  (forall tr,
     calls (snd (run (Axios.get_sites args) tr)) =
       [ {| Axios.method := Axios.GET; Axios.url := "/sites";
            Axios.params := Some args; Axios.body := None |} ]).
Proof.
  split; [| split; [| split; [| split]]]; intros tr.
  - eexists. split.
    + unfold Summary.get_sites, Sdk.client_call. cbv zeta.
      apply exactly_one_call; intros ?; silent.
    + destruct (truthy (get args "pageSize")), (truthy (get args "cursor")),
        (truthy (get args "search")); simpl;
        (repeat split; try reflexivity);
        intros k Hk; simpl in Hk;
        repeat (apply orb_false_elim in Hk; destruct Hk as [? Hk]);
        repeat match goal with H : (_ =? _) = false |- _ => rewrite H; clear H end;
        reflexivity.
  - eexists. split.
    + unfold Initial.get_sites, Sdk.client_call. cbv zeta.
      apply exactly_one_call; intros ?; silent.
    + destruct (truthy (get args "pageSize")), (truthy (get args "cursor")); simpl;
        (repeat split; try reflexivity);
        intros k Hk; simpl in Hk;
        repeat (apply orb_false_elim in Hk; destruct Hk as [? Hk]);
        repeat match goal with H : (_ =? _) = false |- _ => rewrite H; clear H end;
        reflexivity.
  - unfold SdkJson.get_sites, Sdk.client_call.
    apply exactly_one_call; intros ?; silent.
  - unfold SdkContent.get_sites, Sdk.client_call.
    apply exactly_one_call; intros ?; silent.
  - unfold Axios.get_sites, Axios.fingertipApi_get.
    apply exactly_one_call; intros ?; silent.
Qed.

End Listing.

(** ** Listings of the digest builds *)

Lemma member_present v k : present v = true -> member v k = Some (prop v k).
Proof. unfold prop. destruct v; simpl; intros H; try discriminate H; reflexivity. Qed.

Lemma member_absent v k : present v = false -> member v k = None.
Proof. destruct v; simpl; intros H; try discriminate H; reflexivity. Qed.

Lemma traverse_all {A B} (f : A -> M Sdk.Call Sdk.Error B) (g : A -> B)
      (ok : A -> bool) l tr w :
  (forall x w', ok x = true -> f x tr w' = (Normal (g x), w')) ->
  forallb ok l = true ->
  Sdk.traverse f l tr w = (Normal (map g l), w).
Proof.
  intros Hf. induction l as [| x l IH]; simpl; intros Hall; [reflexivity |].
  apply andb_true_iff in Hall. destruct Hall as [Hx Hl].
  unfold bind. rewrite (Hf x w Hx), (IH Hl). reflexivity.
Qed.

Lemma traverse_stops {A B} (f : A -> M Sdk.Call Sdk.Error B) (g : A -> B)
      (ok : A -> bool) l tr :
  (forall x w', ok x = true -> f x tr w' = (Normal (g x), w')) ->
  (forall x w', ok x = false -> exists e, f x tr w' = (Abrupt e, w')) ->
  forallb ok l = false ->
  forall w, exists e, Sdk.traverse f l tr w = (Abrupt e, w).
Proof.
  intros Hf Hbad. induction l as [| x l IH]; simpl; intros Hall w; [discriminate |].
  unfold bind. destruct (ok x) eqn:Hx.
  - rewrite (Hf x w Hx). simpl in Hall. destruct (IH Hall w) as [e He].
    rewrite He. now exists e.
  - destruct (Hbad x w Hx) as [e He]. rewrite He. now exists e.
Qed.

Ltac reads_present Hx :=
  unfold Sdk.read, bind, ret; rewrite !(member_present _ _ Hx); reflexivity.

Ltac reads_absent Hx :=
  unfold Sdk.read, Sdk.TypeError, bind, throw; rewrite (member_absent _ _ Hx);
  eexists; reflexivity.

Section Steps.
Context {C E : Type}.

Lemma try_await_fulfilled {A} (c : C) (k : Value -> M C E A) (h : E -> M C E A) tr w v :
  tr c = Fulfilled v ->
  try_catch (bind (await c) k) h tr w =
  try_catch (k v) h tr {| calls := calls w ++ [c]; stderr := stderr w |}.
Proof. intros H. unfold try_catch, bind, await. now rewrite H. Qed.

Lemma try_ret {A} (a : A) (h : E -> M C E A) tr w :
  try_catch (ret a) h tr w = (Normal a, w).
Proof. reflexivity. Qed.

Lemma try_bind_normal {A B} (m : M C E A) (k : A -> M C E B) (h : E -> M C E B)
      tr w a w' :
  m tr w = (Normal a, w') ->
  try_catch (bind m k) h tr w = try_catch (k a) h tr w'.
Proof. intros H. unfold try_catch, bind. now rewrite H. Qed.

Lemma try_bind_abrupt {A B} (m : M C E A) (k : A -> M C E B) (h : E -> M C E B)
      tr w e w' :
  m tr w = (Abrupt e, w') ->
  try_catch (bind m k) h tr w = h e tr w'.
Proof. intros H. unfold try_catch, bind. now rewrite H. Qed.

End Steps.

(** The four ways a listing of the digest builds can go once the call is
    fulfilled. *)
Ltac listing_start Hset v :=
  cbv zeta; rewrite (try_await_fulfilled _ _ _ _ _ v) by apply Hset; cbv beta.

Ltac listing_nonempty :=
  cbn [truthy negb orb]; cbv iota;
  repeat match goal with
         | |- context [Sdk.is_zero ?t] => change (Sdk.is_zero t) with false
         end;
  cbv iota; unfold Sdk.array_map.

Ltac listing_all g Hall :=
  erewrite try_bind_normal
    by (apply (traverse_all _ g present);
        [ let s := fresh "s" in let w' := fresh "w" in let Hs := fresh "Hs" in
          intros s w' Hs; reads_present Hs
        | exact Hall ]);
  rewrite try_ret; split; reflexivity.

Ltac listing_stops g Hall :=
  match goal with
  | |- context [Sdk.traverse ?f ?l] =>
      match goal with
      | |- context [try_catch _ _ ?tr ?w] =>
          let e := fresh "e" in
          let He := fresh "He" in
          destruct (traverse_stops f g present l tr
                      ltac:(let s := fresh "s" in let w' := fresh "w" in
                            let Hs := fresh "Hs" in
                            intros s w' Hs; reads_present Hs)
                      ltac:(let s := fresh "s" in let w' := fresh "w" in
                            let Hs := fresh "Hs" in
                            intros s w' Hs; reads_absent Hs)
                      Hall w) as [e He];
          rewrite !(try_bind_abrupt _ _ _ _ _ _ _ He)
      end
  end;
  split; reflexivity.

Section Listings.
Context {RT : Runtime}.



End Listings.

(** ** Fulfilled calls that the digest builds report as failures *)

Section Missing.
Context {RT : Runtime}.

(** X8. In the digest builds a fulfilled call is still answered with a
    failure text ("Failed to ..." or "No ... found") when the payload lacks
    the entity the tool reads, and nothing goes to the error stream. *)
Theorem payload_without_entity (v : Value) (tr : Transport Sdk.Call Sdk.Error) :
  (forall c, tr c = Fulfilled v) ->
  forall t, In t (Summary.server ++ Initial.server) ->
  truthy (prop v (entity (name t))) = false ->
  forall args, exists s,
    fst (run (callback t args) tr) = Normal (text_envelope s) /\
    (String.prefix "Failed to " s || String.prefix "No " s) = true /\
    stderr (snd (run (callback t args) tr)) = [].
Proof.
  intros Hset t Ht. simpl in Ht.
  repeat (destruct Ht as [<- | Ht];
          [ intros Hmissing args; simpl name in Hmissing;
            match type of Hmissing with
            | context [entity ?n] =>
                let k := eval vm_compute in (entity n) in
                change (entity n) with k in Hmissing
            end;
            simpl callback;
            unfold run, Summary.get_sites, Summary.get_site, Summary.create_site,
              Summary.get_page, Summary.update_page, Summary.get_page_blocks,
              Summary.get_page_theme, Summary.update_page_theme,
              Summary.update_block, Initial.get_sites, Initial.get_site,
              Initial.create_site, Sdk.client_call;
            listing_start Hset v; rewrite Hmissing, orb_true_r;
            eexists; split; [reflexivity | split; reflexivity] |]).
  contradiction.
Qed.

End Missing.

(** ** Requests of the axios build *)

Section Routing.
Context {RT : Runtime}.

(** X9. In the axios build the HTTP method follows the verb of the tool
    (get and ping read with GET, create posts, update patches, delete
    deletes); a GET or DELETE request never carries a body, a POST or PATCH
    request always carries an object; query parameters go only with
    get-sites; and every path is relative to the base URL. *)
Theorem axios_requests_follow_the_verb :
  forall t, In t Axios.server ->
  forall args tr c,
    In c (calls (snd (run (callback t args) tr))) ->
    Axios.method c = verb_method (name t) /\
    match Axios.method c with
    | Axios.GET | Axios.DELETE => Axios.body c = None
    | Axios.POST | Axios.PATCH => exists o, Axios.body c = Some (JObj o)
    end /\
    (Axios.params c <> None -> name t = "get-sites") /\
    String.prefix "/" (Axios.url c) = true.
Proof.
  intros t Ht args tr. simpl in Ht.
  repeat (destruct Ht as [<- | Ht];
          [ simpl callback; unfold_json_handlers; run_handler;
            repeat match goal with
                   | |- context [truthy (get ?a "content")] =>
                       destruct (truthy (get a "content")); simpl
                   | |- context [JSON_parse ?x] => destruct (JSON_parse x); simpl
                   end;
            try match goal with |- context [tr ?r] => destruct (tr r); simpl end;
            intros c Hc; simpl in Hc;
            repeat (destruct Hc as [<- | Hc]; [| try contradiction]);
            try contradiction;
            (split; [reflexivity |]); (split; [simpl; eauto |]);
            (split; [simpl; first [congruence | reflexivity] | reflexivity]) |]).
  contradiction.
Qed.

End Routing.

(** ** What the bodies hold besides the claims *)

Ltac case_conditions :=
  repeat match goal with
         | |- context [if ?c then _ else _] => destruct c
         end.

Ltac id_is_absent tr :=
  run_handler;
  repeat match goal with
         | |- context [truthy (get ?a "content")] =>
             destruct (truthy (get a "content")); simpl
         | |- context [JSON_parse ?x] => destruct (JSON_parse x); simpl
         end;
  try match goal with |- context [tr ?r] => destruct (tr r); simpl end;
  try match goal with
      | |- context [if negb (truthy ?v) || ?b then _ else _] =>
          destruct (negb (truthy v) || b); simpl
      end;
  let c := fresh "c" in
  let b := fresh "b" in
  let Hc := fresh "Hc" in
  let Hb := fresh "Hb" in
  intros c b Hc Hb; simpl in Hc;
  repeat (destruct Hc as [<- | Hc]; [| try contradiction]);
  try contradiction;
  inversion Hb; subst; clear Hb;
  first
    [ rewrite ?lookup_set_other by reflexivity; rewrite lookup_omit; reflexivity
    | case_conditions; reflexivity ].

Section Bodies.
Context {RT : Runtime}.

Lemma sdk_id_not_in_body t :
  In t (Summary.server ++ SdkJson.server ++ SdkContent.server) ->
  mem (name t) (update_tools ++ ["create-block"]) = true ->
  forall args tr c b,
    In c (calls (snd (run (callback t args) tr))) ->
    sdk_body c = Some (JObj b) ->
    lookup (id_key (paramsSchema t)) b = None.
Proof.
  intros Ht Hname args tr. simpl in Ht.
  repeat (destruct Ht as [<- | Ht]; [try (vm_compute in Hname; discriminate Hname) |]);
    try contradiction; simpl callback; simpl paramsSchema;
    unfold Summary.update_page, Summary.update_page_theme, Summary.update_block;
    unfold_json_handlers; id_is_absent tr.
Qed.

Lemma axios_id_not_in_body t :
  In t Axios.server ->
  mem (name t) (update_tools ++ ["create-block"]) = true ->
  forall args tr c b,
    In c (calls (snd (run (callback t args) tr))) ->
    Axios.body c = Some (JObj b) ->
    lookup (id_key (paramsSchema t)) b = None.
Proof.
  intros Ht Hname args tr. simpl in Ht.
  repeat (destruct Ht as [<- | Ht]; [try (vm_compute in Hname; discriminate Hname) |]);
    try contradiction; simpl callback; simpl paramsSchema;
    unfold_json_handlers; id_is_absent tr.
Qed.

(** X10. The identifier of an update tool or of create-block selects the
    resource and is never repeated in the request body, in any build and
    whatever else the arguments hold. *)
Theorem identifier_is_not_in_the_body :
  (forall t, In t (Summary.server ++ SdkJson.server ++ SdkContent.server) ->
     mem (name t) (update_tools ++ ["create-block"]) = true ->
     forall args tr c b,
       In c (calls (snd (run (callback t args) tr))) ->
       sdk_body c = Some (JObj b) ->
       lookup (id_key (paramsSchema t)) b = None) /\
  (forall t, In t Axios.server ->
     mem (name t) (update_tools ++ ["create-block"]) = true ->
     forall args tr c b,
       In c (calls (snd (run (callback t args) tr))) ->
       Axios.body c = Some (JObj b) ->
       lookup (id_key (paramsSchema t)) b = None).
Proof.
  split; intros t Ht Hname.
  - now apply sdk_id_not_in_body.
  - now apply axios_id_not_in_body.
Qed.

End Bodies.

(** ** Messages of the axios build *)

Lemma getErrorMessage_falls_back (e : Axios.Thrown) :
  match e with
  | Axios.AxiosError m None => Axios.getErrorMessage e = JStr m
  | Axios.AxiosError m (Some r) =>
      truthy (prop (Axios.data r) "message") = false ->
      Axios.getErrorMessage e = JStr m
  | Axios.Error m => Axios.getErrorMessage e = JStr m
  | Axios.NonError x => Axios.getErrorMessage e = JStr (ToString x)
  end.
Proof.
  destruct e as [m [r |] | m | x]; try reflexivity.
  intros H. unfold Axios.getErrorMessage. simpl.
  destruct (is_nullish (Axios.data r)); simpl; [reflexivity |].
  now rewrite H.
Qed.

Section Messages.
Context {RT : Runtime}.


End Messages.

(** ** Bodies of create-site and create-block *)

Section Creation.
Context {RT : Runtime}.

(** X12. What create-site sends besides its defaults.  An empty or missing
    description goes out as [null].  In the axios build a given status and
    given pages, an empty array of pages included, go out unchanged.  The
    second dist build keeps any status other than [undefined], [null] and
    the empty string included.  The other SDK builds send UNPUBLISHED and
    their own default page whatever the arguments hold. *)
Theorem create_site_bodies (args : Object) :
  (forall tr, exists body,
     calls (snd (run (Axios.create_site args) tr)) =
       [ {| Axios.method := Axios.POST; Axios.url := "/sites";
            Axios.params := None; Axios.body := Some (JObj body) |} ] /\
     (truthy (get args "description") = false ->
      lookup "description" body = Some JNull) /\
     (truthy (get args "status") = true ->
      lookup "status" body = Some (get args "status")) /\
     (forall pages, get args "pages" = JArr pages ->
      lookup "pages" body = Some (JArr pages))) /\
  (forall tr, exists c body,
     calls (snd (run (Initial.create_site args) tr)) = [c] /\
     Sdk.arguments c = [JObj body] /\
     (truthy (get args "description") = false ->
      lookup "description" body = Some JNull) /\
     (get args "status" <> JUndefined ->
      lookup "status" body = Some (get args "status"))) /\
  (forall h, In h [Summary.create_site; SdkJson.create_site; SdkContent.create_site] ->
   forall tr, exists c body page,
     calls (snd (run (h args) tr)) = [c] /\
     Sdk.arguments c = [JObj body] /\
     (truthy (get args "description") = false ->
      lookup "description" body = Some JNull /\
      lookup "description" page = Some JNull) /\
     lookup "status" body = Some (JStr "UNPUBLISHED") /\
     lookup "pages" body = Some (JArr [JObj page]) /\
     lookup "slug" page = Some (JStr "index") /\
     lookup "name" page = Some (get args "name")).
Proof.
  split; [| split].
  - intros tr. eexists. split.
    + unfold Axios.create_site, Axios.fingertipApi_post. cbv zeta.
      apply exactly_one_call; intros ?; silent.
    + unfold js_or. repeat split.
      * intros H. simpl. now rewrite H.
      * intros H. simpl. now rewrite H.
      * intros pages H. simpl. now rewrite H.
  - intros tr. eexists _, _. split.
    + unfold Initial.create_site, Sdk.client_call. cbv zeta.
      apply exactly_one_call; intros ?; silent.
    + split; [reflexivity |]. unfold js_or. split.
      * intros H. simpl. now rewrite H.
      * intros H. simpl. destruct (get args "status"); try reflexivity. congruence.
  - intros h Hh tr. simpl in Hh.
    destruct Hh as [<- | [<- | [<- | []]]];
      (eexists _, _, _; split;
       [ unfold Summary.create_site, SdkJson.create_site, SdkContent.create_site,
           Sdk.client_call; cbv zeta;
         apply exactly_one_call; intros ?; silent
       | split; [reflexivity |]; unfold js_or;
         (split; [| repeat split; reflexivity]);
         intros H; simpl; rewrite H; split; reflexivity ]).
Qed.

(** X13. The fields of create-block other than the content and the
    component reference.  The axios build forwards [name], [kind] and
    [isComponent] as they were given and leaves out what was not given.  The
    SDK build always sends the three keys, with [false] for an
    [isComponent] that is missing or falsy. *)
Theorem create_block_fields (args : Object) :
  (forall tr c body,
     In c (calls (snd (run (Axios.create_block args) tr))) ->
     Axios.body c = Some (JObj body) ->
     forall k, In k ["name"; "kind"; "isComponent"] ->
       lookup k body = lookup k args) /\
  (forall tr c body,
     In c (calls (snd (run (SdkContent.create_block args) tr))) ->
     sdk_body c = Some (JObj body) ->
     lookup "name" body = Some (get args "name") /\
     lookup "kind" body = Some (get args "kind") /\
     lookup "isComponent" body =
       Some (if truthy (get args "isComponent") then get args "isComponent"
             else JBool false)).
Proof.
  split; intros tr.
  - unfold Axios.create_block. run_handler.
    repeat match goal with
           | |- context [truthy (get ?a "content")] =>
               destruct (truthy (get a "content")); simpl
           | |- context [JSON_parse ?x] => destruct (JSON_parse x); simpl
           end;
      try match goal with |- context [tr ?r] => destruct (tr r); simpl end;
      intros c body Hc Hb; simpl in Hc;
      repeat (destruct Hc as [<- | Hc]; [| try contradiction]);
      try contradiction;
      inversion Hb; subst; clear Hb;
      intros k Hk; simpl in Hk;
      repeat (destruct Hk as [<- | Hk]; [| try contradiction]);
      try contradiction;
      rewrite ?lookup_set_other by reflexivity; rewrite lookup_omit; reflexivity.
  - unfold SdkContent.create_block. run_handler.
    repeat match goal with
           | |- context [truthy (get ?a "content")] =>
               destruct (truthy (get a "content")); simpl
           | |- context [JSON_parse ?x] => destruct (JSON_parse x); simpl
           end;
      try match goal with |- context [tr ?r] => destruct (tr r); simpl end;
      intros c body Hc Hb; simpl in Hc;
      repeat (destruct Hc as [<- | Hc]; [| try contradiction]);
      try contradiction;
      inversion Hb; subst; clear Hb;
      repeat split; reflexivity.
Qed.

End Creation.

(** ** Keys of the update bodies *)

Lemma defined_has_key args k :
  negb (Sdk.is_undefined (get args k)) = true -> lookup k args <> None.
Proof. unfold get. destruct (lookup k args); [congruence | discriminate]. Qed.

Lemma truthy_has_key args k :
  truthy (get args k) = true -> lookup k args <> None.
Proof. unfold get. destruct (lookup k args); [congruence | discriminate]. Qed.

Lemma omit_has_key k ks args :
  lookup k (omit ks args) <> None -> lookup k args <> None.
Proof. rewrite lookup_omit. destruct (mem k ks); congruence. Qed.

Lemma set_content_has_key k v ks args :
  truthy (get args "content") = true ->
  lookup k (set "content" v (omit ks args)) <> None -> lookup k args <> None.
Proof.
  intros Htruthy. destruct (String.eqb k "content") eqn:E.
  - apply String.eqb_eq in E. subst. intros _. now apply truthy_has_key.
  - rewrite lookup_set_other by exact E. apply omit_has_key.
Qed.

Ltac key_from_arguments tr :=
  run_handler;
  repeat match goal with
         | |- context [truthy (get ?a "content")] =>
             let Etruthy := fresh "Etruthy" in
             destruct (truthy (get a "content")) eqn:Etruthy; simpl
         | |- context [JSON_parse ?x] => destruct (JSON_parse x); simpl
         end;
  try match goal with |- context [tr ?r] => destruct (tr r); simpl end;
  try match goal with
      | |- context [if negb (truthy ?v) || ?b then _ else _] =>
          destruct (negb (truthy v) || b); simpl
      end;
  let c := fresh "c" in
  let b := fresh "b" in
  let Hc := fresh "Hc" in
  let Hb := fresh "Hb" in
  let k := fresh "k" in
  intros c b Hc Hb k; simpl in Hc;
  repeat (destruct Hc as [<- | Hc]; [| try contradiction]);
  try contradiction;
  inversion Hb; subst; clear Hb;
  first
    [ apply omit_has_key
    | apply set_content_has_key; assumption
    | repeat match goal with
             | |- context [if negb (Sdk.is_undefined (get ?a ?f)) then _ else _] =>
                 let Hf := fresh "Hf" in
                 destruct (negb (Sdk.is_undefined (get a f))) eqn:Hf
             end;
      simpl;
      repeat match goal with
             | |- context [if String.eqb ?x ?s then _ else _] =>
                 destruct (String.eqb_spec x s);
                 [subst; intros _; apply defined_has_key; assumption |]
             end;
      congruence ].

Section Keys.
Context {RT : Runtime}.

Lemma sdk_update_keys t :
  In t (Summary.server ++ SdkJson.server ++ SdkContent.server) ->
  mem (name t) update_tools = true ->
  forall args tr c b,
    In c (calls (snd (run (callback t args) tr))) ->
    sdk_body c = Some (JObj b) ->
    forall k, lookup k b <> None -> lookup k args <> None.
Proof.
  intros Ht Hname args tr. simpl in Ht.
  repeat (destruct Ht as [<- | Ht]; [try (vm_compute in Hname; discriminate Hname) |]);
    try contradiction; simpl callback;
    unfold Summary.update_page, Summary.update_page_theme, Summary.update_block;
    unfold_json_handlers; key_from_arguments tr.
Qed.

Lemma axios_update_keys t :
  In t Axios.server ->
  mem (name t) update_tools = true ->
  forall args tr c b,
    In c (calls (snd (run (callback t args) tr))) ->
    Axios.body c = Some (JObj b) ->
    forall k, lookup k b <> None -> lookup k args <> None.
Proof.
  intros Ht Hname args tr. simpl in Ht.
  repeat (destruct Ht as [<- | Ht]; [try (vm_compute in Hname; discriminate Hname) |]);
    try contradiction; simpl callback;
    unfold_json_handlers; key_from_arguments tr.
Qed.

(** X14. An update never invents a field: every key of the body that an
    update tool sends is a key of its arguments, in every build. *)
Theorem update_bodies_hold_only_given_keys :
  (forall t, In t (Summary.server ++ SdkJson.server ++ SdkContent.server) ->
     mem (name t) update_tools = true ->
     forall args tr c b,
       In c (calls (snd (run (callback t args) tr))) ->
       sdk_body c = Some (JObj b) ->
       forall k, lookup k b <> None -> lookup k args <> None) /\
  (forall t, In t Axios.server ->
     mem (name t) update_tools = true ->
     forall args tr c b,
       In c (calls (snd (run (callback t args) tr))) ->
       Axios.body c = Some (JObj b) ->
       forall k, lookup k b <> None -> lookup k args <> None).
Proof.
  split; intros t Ht Hname.
  - now apply sdk_update_keys.
  - now apply axios_update_keys.
Qed.

End Keys.

(** ** Runs on the reference runtime *)

Section Runs.
#[local] Existing Instance Reference.runtime.


Lemma invalid_uuid_is_rejected_witness :
  In "siteId" id_keys /\
  is_uuid "not-a-uuid" = false /\
  exists t,
    find_tool "get-site" Axios.server = Some t /\
    exists issues,
      In "siteId" issues /\
      fst (run (call_tool t [("siteId", JStr "not-a-uuid")]) fulfilled) =
        Normal (text_envelope (validation_error_text "get-site" issues)) /\
      calls (snd (run (call_tool t [("siteId", JStr "not-a-uuid")]) fulfilled)) = [].
Proof.
  split; [simpl; tauto |]. split; [reflexivity |].
  eexists. split; [reflexivity |].
  apply (proj2 (invalid_uuid_is_rejected (RT := Reference.runtime) "siteId" "not-a-uuid"
                  (or_introl eq_refl) eq_refl)
           _ (or_intror (or_intror (or_introl eq_refl)))
           Zod.z_uuid (or_introl eq_refl)).
  reflexivity.
Defined.


Lemma content_goes_out_parsed_witness :
  JSON_parse "[1, 2]" = Parsed (JArr [JNum 1; JNum 2]) /\
  exists t,
    find_tool "update-block" Axios.server = Some t /\
    string_content (paramsSchema t) = true /\
    exists c body,
      calls (snd (run (callback t [("blockId", JStr id1); ("content", JStr "[1, 2]")])
                    fulfilled)) = [c] /\
      Axios.body c = Some (JObj body) /\
      lookup "content" body = Some (JArr [JNum 1; JNum 2]).
Proof.
  split; [reflexivity |].
  eexists. split; [reflexivity |]. split; [reflexivity |].
  apply (proj2 (content_goes_out_parsed (RT := Reference.runtime) "[1, 2]" (JArr [JNum 1; JNum 2]) eq_refl));
    [simpl; tauto | reflexivity | reflexivity].
Defined.

Lemma malformed_content_is_not_sent_witness :
  "{not json" <> "" /\
  JSON_parse "{not json" = SyntaxError "Unexpected token in JSON" /\
  exists t,
    find_tool "create-block" SdkContent.server = Some t /\
    string_content (paramsSchema t) = true /\
    fst (run (callback t [("pageId", JStr id1); ("content", JStr "{not json")])
           fulfilled) =
      Normal (text_envelope
                ("Error parsing content JSON: " ++ "Unexpected token in JSON")) /\
    calls (snd (run (callback t [("pageId", JStr id1); ("content", JStr "{not json")])
                  fulfilled)) = [].
Proof.
  split; [discriminate |]. split; [reflexivity |].
  eexists. split; [reflexivity |]. split; [reflexivity |].
  apply (proj1 (malformed_content_is_not_sent (RT := Reference.runtime) "{not json" "Unexpected token in JSON"
                  ltac:(discriminate) eq_refl));
    [simpl; tauto | reflexivity | reflexivity].
Defined.

Lemma empty_content_is_no_content_witness :
  exists t,
    find_tool "update-page-theme" Axios.server = Some t /\
    string_content (paramsSchema t) = true /\
    run (callback t [("pageId", JStr id1); ("content", JStr "")]) fulfilled =
      run (callback t (omit ["content"] [("pageId", JStr id1); ("content", JStr "")]))
        fulfilled /\
    exists c body,
      calls (snd (run (callback t [("pageId", JStr id1); ("content", JStr "")])
                    fulfilled)) = [c] /\
      Axios.body c = Some (JObj body) /\
      lookup "content" body = None.
Proof.
  eexists. split; [reflexivity |]. split; [reflexivity |].
  apply (proj2 (empty_content_is_no_content (RT := Reference.runtime)));
    [simpl; tauto | reflexivity | reflexivity].
Defined.




(** An explicit [null] passes the argument check and reaches the body. *)
Lemma explicit_null_is_sent :
  exists t,
    find_tool "update-block" Axios.server = Some t /\
    calls (snd (run (call_tool t [("blockId", JStr id1); ("componentBlockId", JNull)])
                  fulfilled)) =
      [ {| Axios.method := Axios.PATCH;
           Axios.url := "/blocks/" ++ id1;
           Axios.params := None;
           Axios.body := Some (JObj [("componentBlockId", JNull)]) |} ].
Proof. eexists. split; reflexivity. Qed.

(** The first end-to-end scenario, on the digest build. *)
Lemma digest_of_a_site :
  fst (run (Summary.get_site [("siteId", JStr id1)])
         (fun _ => Fulfilled (JObj [("site", JObj [("id", JStr id1);
                                                   ("name", JStr "Acme");
                                                   ("slug", JStr "acme");
                                                   ("status", JStr "ENABLED")])]))) =
    Normal (text_envelope
              (join LF ["Site Details:";
                        "ID: " ++ id1;
                        "Name: Acme";
                        "Slug: acme";
                        "Description: None";
                        "Status: ENABLED";
                        "Business Type: None";
                        "Created: undefined";
                        "Updated: undefined";
                        ""])).
Proof. reflexivity. Qed.

(** *** Where the builds depart from the claims *)





End Runs.

(** ** Runs for the further properties *)

Section FurtherRuns.
#[local] Existing Instance Reference.runtime.

Lemma invocations_are_independent_witness :
  exists t,
    find_tool "update-block" Axios.server = Some t /\
    exists r cs errs,
      length cs <= 1 /\
      forall w, callback t [("blockId", JStr id1); ("kind", JStr "text")] not_found w =
                (r, {| calls := calls w ++ cs; stderr := stderr w ++ errs |}).
Proof.
  eexists. split; [reflexivity |].
  apply (proj2 (invocations_are_independent (RT := Reference.runtime))).
  simpl. tauto.
Defined.

Lemma one_request_fixed_by_the_arguments_witness :
  exists t,
    find_tool "get-site" Axios.server = Some t /\
    string_content (paramsSchema t) = false /\
    exists c, forall tr, calls (snd (run (callback t [("siteId", JStr id1)]) tr)) = [c].
Proof.
  eexists. split; [reflexivity |]. split; [reflexivity |].
  apply (proj2 (one_request_fixed_by_the_arguments (RT := Reference.runtime)));
    [simpl; tauto | reflexivity].
Defined.

Lemma fulfilled_calls_return_the_payload_witness :
  exists t,
    find_tool "get-page" SdkJson.server = Some t /\
    calls (snd (run (callback t [("pageId", JStr id1)]) (fulfils one_site))) <> [] /\
    fst (run (callback t [("pageId", JStr id1)]) (fulfils one_site)) =
      Normal (text_envelope (JSON_stringify_indent one_site 2)).
Proof.
  eexists. split; [reflexivity |]. split; [discriminate |].
  apply (proj1 (fulfilled_calls_return_the_payload (RT := Reference.runtime) one_site)
           _ _ (fulfils one_site));
    [simpl; tauto | reflexivity | discriminate].
Defined.

Lemma only_rejected_calls_are_logged_witness :
  exists t,
    find_tool "delete-block" Axios.server = Some t /\
    ((stderr (snd (run (callback t [("blockId", JStr id1)]) not_found)) = [] /\
      forall c, In c (calls (snd (run (callback t [("blockId", JStr id1)]) not_found))) ->
                exists v, not_found c = Fulfilled v) \/
     (stderr (snd (run (callback t [("blockId", JStr id1)]) not_found)) = ["Error:"] /\
      exists c e,
        calls (snd (run (callback t [("blockId", JStr id1)]) not_found)) = [c] /\
        not_found c = Rejected e)).
Proof.
  eexists. split; [reflexivity |].
  apply (proj2 (only_rejected_calls_are_logged (RT := Reference.runtime))).
  simpl. tauto.
Defined.



Lemma payload_without_entity_witness :
  (forall c, fulfils (C := Sdk.Call) (E := Sdk.Error) (JObj []) c = Fulfilled (JObj [])) /\
  exists t,
    find_tool "get-page" Summary.server = Some t /\
    truthy (prop (JObj []) (entity (name t))) = false /\
    exists s,
      fst (run (callback t [("pageId", JStr id1)]) (fulfils (JObj []))) =
        Normal (text_envelope s) /\
      (String.prefix "Failed to " s || String.prefix "No " s) = true /\
      stderr (snd (run (callback t [("pageId", JStr id1)]) (fulfils (JObj [])))) = [].
Proof.
  split; [reflexivity |].
  eexists. split; [reflexivity |]. split; [reflexivity |].
  apply (payload_without_entity (JObj []) (fulfils (JObj []))
           (fun _ => eq_refl));
    [simpl; tauto | reflexivity].
Defined.

Lemma identifier_is_not_in_the_body_witness :
  exists t c b,
    find_tool "update-page" Axios.server = Some t /\
    mem (name t) (update_tools ++ ["create-block"]) = true /\
    In c (calls (snd (run (callback t [("pageId", JStr id1); ("name", JStr "Home")])
                        fulfilled))) /\
    Axios.body c = Some (JObj b) /\
    lookup (id_key (paramsSchema t)) b = None.
Proof.
  eexists _, _, _. split; [reflexivity |]. split; [reflexivity |].
  assert (Hin : forall (x : Axios.Request), In x [x]) by (intros x; now left).
  split; [apply Hin |]. split; [reflexivity |].
  apply (proj2 (identifier_is_not_in_the_body (RT := Reference.runtime))
           _ (or_intror (or_intror (or_intror (or_intror (or_intror (or_introl eq_refl))))))
           eq_refl [("pageId", JStr id1); ("name", JStr "Home")] fulfilled
           _ _ (Hin _) eq_refl).
Defined.


Lemma axios_requests_follow_the_verb_witness :
  exists t c,
    find_tool "delete-block" Axios.server = Some t /\
    In c (calls (snd (run (callback t [("blockId", JStr id1)]) fulfilled))) /\
    Axios.method c = Axios.DELETE /\
    Axios.body c = None /\
    Axios.url c = "/blocks/" ++ id1.
Proof.
  eexists _, _. split; [reflexivity |].
  assert (Hin : forall (x : Axios.Request), In x [x]) by (intros x; now left).
  split; [apply Hin |].
  destruct (axios_requests_follow_the_verb (RT := Reference.runtime)
              _ (or_intror (or_intror (or_intror (or_intror (or_intror (or_intror
                   (or_intror (or_intror (or_intror (or_intror (or_intror (or_intror
                      (or_introl eq_refl)))))))))))))
              [("blockId", JStr id1)] fulfilled _ (Hin _)) as (Hm & Hb & _ & _).
  split; [exact Hm |]. split; [exact Hb | reflexivity].
Defined.

Lemma create_block_fields_witness :
  exists c body,
    In c (calls (snd (run (Axios.create_block
                             [("pageId", JStr id1); ("name", JStr "Hero");
                              ("kind", JStr "text")]) fulfilled))) /\
    Axios.body c = Some (JObj body) /\
    lookup "name" body = Some (JStr "Hero") /\
    lookup "isComponent" body = None.
Proof.
  eexists _, _.
  assert (Hin : forall (x : Axios.Request), In x [x]) by (intros x; now left).
  split; [apply Hin |]. split; [reflexivity |].
  pose proof (proj1 (create_block_fields (RT := Reference.runtime)
                       [("pageId", JStr id1); ("name", JStr "Hero"); ("kind", JStr "text")])
                fulfilled _ _ (Hin _) eq_refl) as H.
  split.
  - exact (H "name" (or_introl eq_refl)).
  - exact (H "isComponent" (or_intror (or_intror (or_introl eq_refl)))).
Defined.

Lemma update_bodies_hold_only_given_keys_witness :
  exists t c b,
    find_tool "update-block" Summary.server = Some t /\
    mem (name t) update_tools = true /\
    In c (calls (snd (run (callback t [("blockId", JStr id1); ("kind", JStr "text")])
                        fulfilled))) /\
    sdk_body c = Some (JObj b) /\
    lookup "kind" b <> None /\
    lookup "kind" [("blockId", JStr id1); ("kind", JStr "text")] <> None.
Proof.
  eexists _, _, _. split; [reflexivity |]. split; [reflexivity |].
  assert (Hin : forall (x : Sdk.Call), In x [x]) by (intros x; now left).
  split; [apply Hin |]. split; [reflexivity |].
  assert (Hk : lookup "kind" [("kind", JStr "text")] <> None) by discriminate.
  split; [exact Hk |].
  apply (proj1 (update_bodies_hold_only_given_keys (RT := Reference.runtime))
           _ (or_intror (or_intror (or_intror (or_intror (or_intror (or_intror
                (or_intror (or_intror (or_introl eq_refl)))))))))
           eq_refl [("blockId", JStr id1); ("kind", JStr "text")] fulfilled
           _ _ (Hin _) eq_refl "kind" Hk).
Defined.

Lemma create_site_bodies_witness :
  get [("name", JStr "Acme"); ("description", JStr ""); ("pages", JArr [])] "pages" =
    JArr [] /\
  exists body,
    calls (snd (run (Axios.create_site
                       [("name", JStr "Acme"); ("description", JStr "");
                        ("pages", JArr [])]) fulfilled)) =
      [ {| Axios.method := Axios.POST; Axios.url := "/sites";
           Axios.params := None; Axios.body := Some (JObj body) |} ] /\
    lookup "description" body = Some JNull /\
    lookup "pages" body = Some (JArr []).
Proof.
  split; [reflexivity |].
  destruct (proj1 (create_site_bodies (RT := Reference.runtime)
                     [("name", JStr "Acme"); ("description", JStr "");
                      ("pages", JArr [])]) fulfilled)
    as (body & Hcalls & Hdesc & _ & Hpages).
  exists body. split; [exact Hcalls |]. split.
  - exact (Hdesc eq_refl).
  - exact (Hpages [] eq_refl).
Defined.

Lemma get_sites_query_parameters_witness :
  exists params,
    calls (snd (run (Summary.get_sites [("pageSize", JNum 0); ("cursor", JStr "abc")])
                  fulfilled)) =
      [ {| Sdk.operation := "api.v1.sites.list"; Sdk.arguments := [JObj params] |} ] /\
    lookup "pageSize" params = None /\
    lookup "cursor" params = Some (JStr "abc").
Proof.
  destruct (proj1 (get_sites_query_parameters (RT := Reference.runtime)
                     [("pageSize", JNum 0); ("cursor", JStr "abc")]) fulfilled)
    as (params & Hcalls & Hsize & Hcursor & _).
  exists params. split; [exact Hcalls |]. split; [exact Hsize | exact Hcursor].
Defined.

End FurtherRuns.
